(** * Henry Hub volatility pipeline: a shallow embedding

    Source: [natgas_HH_volatility_analysis.py].  The stages
    ([convert_date_format], [calculate_ln_returns],
    [calculate_rolling_volatility]), [read_csv_file], the data
    preparation of the two plot functions and [main] are embedded; the
    rendering is outside the embedding.

    Conventions of the embedding.
    - A float64 cell is an IEEE 754 binary64 value ([spec_float] with
      precision 53 and maximal exponent 1024): NaN, the signed
      infinities and zeros, and the finite numbers.  Division, addition,
      multiplication and square root round to nearest even, as the
      hardware does.
    - [np.log] is the library's on positive finite arguments (a
      parameter, [libm_log]) and follows IEEE 754 elsewhere.
    - A text is a sequence of code points below 256.
    - A DataFrame is a finite map from column labels to columns; all
      frames carry the default [RangeIndex] (as [read_csv] and
      [reset_index(drop=True)] produce), so the index is left implicit.
    - DataFrames are Python objects: they live in a heap and the stage
      functions receive and return references.
    - The pandas operations follow pandas 2.x: the rolling variance is
      the online update of [roll_var], compiled without fused
      multiply-add, and parsing errors carry a position.  The range of
      representable timestamps is a parameter ([in_bounds]). *)

From Stdlib Require Import Floats.SpecFloat Ascii.
From stdpp Require Import gmap strings list fin_maps pretty.

Local Open Scope Z_scope.

(** ** float64 cells *)

Abbreviation f64 := spec_float.
Abbreviation NaN := S754_nan.
Abbreviation PInf := (S754_infinity false).
Abbreviation NInf := (S754_infinity true).

Global Instance f64_eq_dec : EqDecision spec_float.
Proof. solve_decision. Defined.

Definition fdiv : f64 → f64 → f64 := SFdiv 53 1024.
Definition fmul : f64 → f64 → f64 := SFmul 53 1024.
Definition fadd : f64 → f64 → f64 := SFadd 53 1024.
Definition fsub : f64 → f64 → f64 := SFsub 53 1024.
Definition fsqrt : f64 → f64 := SFsqrt 53 1024.

(** The float64 nearest to an integer. *)
Definition f64_of_Z (z : Z) : f64 := binary_normalize 53 1024 z 0 false.

Definition f64_of_nat (n : nat) : f64 := f64_of_Z (Z.of_nat n).

(** The float64 a decimal literal [m / 10^k] denotes, for [m] and [10^k]
    below [2^53]. *)
Definition f64_of_decimal (m : Z) (k : nat) : f64 :=
  fdiv (f64_of_Z m) (f64_of_Z (10 ^ Z.of_nat k)).

Definition isnan (v : f64) : bool :=
  match v with S754_nan => true | _ => false end.

Definition isinf (v : f64) : bool :=
  match v with S754_infinity _ => true | _ => false end.

Definition isfinite (v : f64) : bool :=
  match v with S754_zero _ | S754_finite _ _ _ => true | _ => false end.

(** A cell holds a number ("is defined") when it is finite. *)
Definition defined (v : f64) : Prop := isfinite v = true.

(** ** Series operations *)

Section returns.

(** [np.log] on a positive finite float64, as the library computes it. *)
Variable libm_log : f64 → f64.

(** [np.log] on one cell: a warning at most, never an exception. *)
Definition flog (a : f64) : f64 :=
  match a with
  | S754_nan => NaN
  | S754_infinity false => PInf
  | S754_infinity true => NaN
  | S754_zero _ => NInf
  | S754_finite true _ _ => NaN
  | S754_finite false _ _ => libm_log a
  end.

(** [s.shift(1)]: same length, a leading NaN, the last cell dropped. *)
Definition shift1 (xs : list f64) : list f64 :=
  take (length xs) (NaN :: xs).

(** [a / b] on two series over the same index. *)
Definition series_div (xs ys : list f64) : list f64 :=
  zip_with fdiv xs ys.

Definition np_log (xs : list f64) : list f64 := flog <$> xs.

(** The value assigned to ['ln_returns'] on line 86. *)
Definition ln_returns (prices : list f64) : list f64 :=
  np_log (series_div prices (shift1 prices)).

End returns.

(** ** Rolling standard deviation: [Series.rolling(window).std()] *)

(** [Rolling._prep_values]: infinities are turned into NaN before the
    aggregation runs. *)
Definition prep_value (v : f64) : f64 := if isinf v then NaN else v.

(** The running state of [roll_var]. *)
Record var_state : Type := VarState {
  nobs : nat;
  mean_x : f64;
  ssqdm_x : f64;
  compensation_add : f64;
  compensation_remove : f64;
  num_consecutive_same_value : nat;
  prev_value : f64
}.

Definition f64_zero : f64 := S754_zero false.

Definition fresh_state (prev : f64) : var_state :=
  VarState 0 f64_zero f64_zero f64_zero f64_zero 0 prev.

(** [add_var]: Welford's update with Kahan compensation; NaN is
    skipped. *)
Definition add_var (val : f64) (st : var_state) : var_state :=
  if isnan val then st
  else
    let n := S (nobs st) in
    let same :=
      if SFeqb val (prev_value st)
      then S (num_consecutive_same_value st) else 1%nat in
    let prev_mean := fsub (mean_x st) (compensation_add st) in
    let y := fsub val (compensation_add st) in
    let t := fsub y (mean_x st) in
    let compensation := fsub (fadd t (mean_x st)) y in
    let mean := fadd (mean_x st) (fdiv t (f64_of_nat n)) in
    let ssqdm :=
      fadd (ssqdm_x st) (fmul (fsub val prev_mean) (fsub val mean)) in
    VarState n mean ssqdm compensation (compensation_remove st) same val.

(** [remove_var]: the inverse update; the state is cleared when no
    observation is left. *)
Definition remove_var (val : f64) (st : var_state) : var_state :=
  if isnan val then st
  else
    let n := (nobs st - 1)%nat in
    if (n =? 0)%nat
    then VarState n f64_zero f64_zero (compensation_add st)
           (compensation_remove st) (num_consecutive_same_value st)
           (prev_value st)
    else
      let prev_mean := fsub (mean_x st) (compensation_remove st) in
      let y := fsub val (compensation_remove st) in
      let t := fsub y (mean_x st) in
      let compensation := fsub (fadd t (mean_x st)) y in
      let mean := fsub (mean_x st) (fdiv t (f64_of_nat n)) in
      let ssqdm :=
        fsub (ssqdm_x st) (fmul (fsub val prev_mean) (fsub val mean)) in
      VarState n mean ssqdm (compensation_add st) compensation
        (num_consecutive_same_value st) (prev_value st).

(** [calc_var]: a number only with at least [minp] observations and more
    than [ddof] of them. *)
Definition calc_var (minp ddof : nat) (st : var_state) : f64 :=
  if ((minp <=? nobs st) && (ddof <? nobs st))%nat
  then
    if ((nobs st =? 1) || (nobs st <=? num_consecutive_same_value st))%nat
    then f64_zero
    else fdiv (ssqdm_x st) (f64_of_nat (nobs st - ddof))
  else NaN.

(** The cells [a .. b-1]. *)
Definition slice (a b : nat) (xs : list f64) : list f64 :=
  take (b - a) (drop a xs).

(** Bounds of the fixed window of position [i]:
    [start = clip(i + 1 - w, 0, N)], [end = i + 1]. *)
Definition window_start (w n i : nat) : nat := (S i - w) `min` n.

(** One turn of the loop of [roll_var]: the window is rebuilt at the
    first position and when it shares nothing with the previous one,
    and updated otherwise. *)
Definition roll_var_step (w : nat) (values : list f64) (i : nat)
    (st : var_state) : var_state :=
  let n := length values in
  let s := window_start w n i in
  let e := S i in
  if ((i =? 0) || (i <=? s))%nat
  then foldl (λ st v, add_var v st) (fresh_state (default NaN (values !! s)))
         (slice s e values)
  else
    let st' := foldl (λ st v, remove_var v st) st
                 (slice (window_start w n (i - 1)) s values) in
    foldl (λ st v, add_var v st) st' (slice i e values).

Fixpoint roll_var_from (w minp ddof : nat) (values : list f64)
    (i count : nat) (st : var_state) : list f64 :=
  match count with
  | O => []
  | S count' =>
      let st' := roll_var_step w values i st in
      calc_var minp ddof st' :: roll_var_from w minp ddof values
          (S i) count' st'
  end.

(** [min_periods] defaults to the window length and is raised to at
    least 1. *)
Definition roll_var (w ddof : nat) (values : list f64) : list f64 :=
  roll_var_from w (w `max` 1) ddof values 0 (length values)
    (fresh_state NaN).

(** [zsqrt]: the square root, with 0 where the variance is negative. *)
Definition zsqrt (x : f64) : f64 :=
  if SFltb x f64_zero then f64_zero else fsqrt x.

(** [std()] uses [ddof = 1]. *)
Definition rolling_std (w : nat) (xs : list f64) : list f64 :=
  zsqrt <$> roll_var w 1 (prep_value <$> xs).

(** ** Calendar dates *)

Record date : Type := Date { year : Z; month : Z; day : Z }.

Global Instance date_eq_dec : EqDecision date.
Proof. solve_decision. Defined.

Definition is_leap (y : Z) : bool :=
  (y mod 4 =? 0) && (negb (y mod 100 =? 0) || (y mod 400 =? 0)).

Definition days_in_month (y m : Z) : Z :=
  match m with
  | 2 => if is_leap y then 29 else 28
  | 4 | 6 | 9 | 11 => 30
  | _ => 31
  end.

(** What [datetime.date(y, m, d)] accepts. *)
Definition valid_date (d : date) : bool :=
  (1 <=? year d) && (year d <=? 9999) &&
  (1 <=? month d) && (month d <=? 12) &&
  (1 <=? day d) && (day d <=? days_in_month (year d) (month d)).

Definition date_ltb (a b : date) : bool :=
  (year a <? year b) ||
  ((year a =? year b) &&
   ((month a <? month b) ||
    ((month a =? month b) && (day a <? day b)))).

Definition date_lt (a b : date) : Prop := date_ltb a b = true.

(** Midnights representable as a nanosecond timestamp, the resolution
    of pandas 2.x: 1677-09-22 up to 2262-04-11. *)
Definition in_ns_bounds (d : date) : bool :=
  negb (date_ltb d (Date 1677 9 22)) && negb (date_ltb (Date 2262 4 11) d).

(** ** Parsing and printing dates *)

(** [\d] and the ranges [[0-9]]: among the code points below 256 the
    decimal digits are the ten ASCII ones. *)
Definition digit_of (c : ascii) : option Z :=
  let n := Z.of_N (N_of_ascii c) in
  if (48 <=? n) && (n <=? 57) then Some (n - 48) else None.

Definition char_of_digit (n : Z) : ascii := ascii_of_N (Z.to_N (48 + n)).

(** A regular-expression fragment yields its matches at the head of the
    text, in priority order, each with the unread remainder. *)
Definition matcher (A : Type) : Type := string → list (A * string).

(** One digit satisfying [p]. *)
Definition alt1 (p : Z → bool) : matcher Z := λ s,
  match s with
  | String c r =>
      match digit_of c with
      | Some a => if p a then [(a, r)] else []
      | None => []
      end
  | _ => []
  end.

(** Two digits satisfying [p], read as a decimal number. *)
Definition alt2 (p : Z → Z → bool) : matcher Z := λ s,
  match s with
  | String c1 (String c2 r) =>
      match digit_of c1, digit_of c2 with
      | Some a, Some b => if p a b then [(10 * a + b, r)] else []
      | _, _ => []
      end
  | _ => []
  end.

(** A literal character. *)
Definition lit (c : ascii) : matcher unit := λ s,
  match s with
  | String c' r => if decide (c = c') then [((), r)] else []
  | _ => []
  end.

(** [%m]: [1[0-2]|0[1-9]|[1-9]]. *)
Definition match_m : matcher Z := λ s,
  alt2 (λ a b, (a =? 1) && (b <=? 2)) s ++
  alt2 (λ a b, (a =? 0) && (1 <=? b)) s ++
  alt1 (λ a, 1 <=? a) s.

(** [%d]: [3[0-1]|[1-2]\d|0[1-9]|[1-9]| [1-9]]. *)
Definition match_d : matcher Z := λ s,
  alt2 (λ a b, (a =? 3) && (b <=? 1)) s ++
  alt2 (λ a b, (1 <=? a) && (a <=? 2)) s ++
  alt2 (λ a b, (a =? 0) && (1 <=? b)) s ++
  alt1 (λ a, 1 <=? a) s ++
  ('(_, r) ← lit " " s; alt1 (λ a, 1 <=? a) r).

(** [%Y]: four digits. *)
Definition match_Y : matcher Z := λ s,
  '(hi, r) ← alt2 (λ _ _, true) s;
  '(lo, r') ← alt2 (λ _ _, true) r;
  [(100 * hi + lo, r')].

Definition slash : ascii := "/"%char.

(** The compiled pattern of [%m/%d/%Y]; the first complete match wins. *)
Definition regex_mdy (s : string) : option (date * string) :=
  head ('(m, r1) ← match_m s;
        '(_, r2) ← lit slash r1;
        '(d, r3) ← match_d r2;
        '(_, r4) ← lit slash r3;
        '(y, r5) ← match_Y r4;
        [(Date y m d, r5)]).

(** The compiled pattern of [%d/%m/%Y]. *)
Definition regex_dmy (s : string) : option (date * string) :=
  head ('(d, r1) ← match_d s;
        '(_, r2) ← lit slash r1;
        '(m, r3) ← match_m r2;
        '(_, r4) ← lit slash r3;
        '(y, r5) ← match_Y r4;
        [(Date y m d, r5)]).

(** Why one text fails to parse. *)
Inductive parse_error : Type :=
  | NoMatch                      (* time data doesn't match format *)
  | Unconverted (rest : string)  (* unconverted data remains *)
  | OutOfRange                   (* no such calendar day *)
  | OutOfBounds.                 (* outside the timestamp range *)

(** Strings that [to_datetime] reads as a missing timestamp. *)
Definition nat_strings : list string :=
  ["NaT"; "nat"; "NAT"; "nan"; "NaN"; "NAN"].

Section parsing.

(** The timestamps the installed pandas can represent: [in_ns_bounds]
    for pandas 2.x. *)
Variable in_bounds : date → bool.

(** One text cell under an exact format; [None] is [NaT]. *)
Definition strptime (regex : string → option (date * string)) (s : string)
  : parse_error + option date :=
  if bool_decide (s = "" ∨ s ∈ nat_strings) then inr None
  else match regex s with
       | None => inl NoMatch
       | Some (d, rest) =>
           if bool_decide (rest ≠ "") then inl (Unconverted rest)
           else if negb (valid_date d) then inl OutOfRange
           else if negb (in_bounds d) then inl OutOfBounds
           else inr (Some d)
       end.

End parsing.

Definition pad2 (n : Z) : string :=
  String (char_of_digit (n / 10)) (String (char_of_digit (n mod 10)) "").

Definition pad4 (n : Z) : string := pad2 (n / 100) +:+ pad2 (n mod 100).

(** [strftime("%d/%m/%Y")] on one timestamp. *)
Definition strftime_dmy (d : date) : string :=
  pad2 (day d) +:+ "/" +:+ pad2 (month d) +:+ "/" +:+ pad4 (year d).

(** ** DataFrames in a heap *)

(** A column is float64 or holds Python objects: text, with [None] for
    a missing cell. *)
Inductive column : Type :=
  | FloatCol (xs : list f64)
  | ObjCol (xs : list (option string)).

Abbreviation frame := (gmap string column).
Abbreviation loc := nat (only parsing).
Abbreviation heap := (gmap nat (gmap string column)).

Inductive raw_value : Type :=
  | RawStr (s : string)
  | RawNum (x : f64).

(** Python exceptions the stages can raise.  The [ValueError]s of
    [to_datetime] carry what their message mentions. *)
Inductive exn : Type :=
  | ReferenceError
  | AttributeError
  | KeyError (label : string)
  | TypeError
  | DataError
  | ValueError_window
  | ValueError_time_data (pos : nat) (raw : raw_value)
  | ValueError_unconverted (pos : nat) (rest : string)
  | ValueError_out_of_range (pos : nat)
  | OutOfBoundsDatetime (pos : nat) (raw : raw_value).

Inductive result (A : Type) : Type :=
  | Ret (a : A)
  | Raise (e : exn).
Arguments Ret {A} a.
Arguments Raise {A} e.

(** Computations that read and update the heap and may raise. *)
Definition M (A : Type) : Type := heap → heap * result A.

Global Instance M_ret : MRet M := λ A a h, (h, Ret a).

Global Instance M_bind : MBind M := λ A B f m h,
  match m h with
  | (h', Ret a) => f a h'
  | (h', Raise e) => (h', Raise e)
  end.

Definition raise {A : Type} (e : exn) : M A := λ h, (h, Raise e).

Definition lift {A : Type} (r : result A) : M A := λ h, (h, r).

(** A location outside the heap names no object; the operations raise
    there, which keeps them total. *)
Definition deref (l : loc) : M frame := λ h,
  match h !! l with
  | Some f => (h, Ret f)
  | None => (h, Raise ReferenceError)
  end.

(** A new object holding [f]. *)
Definition alloc (f : frame) : M loc := λ h,
  let l := fresh (dom h) in (<[l := f]> h, Ret l).

(** [df.copy()]: a deep copy, a new object. *)
Definition df_copy (df : loc) : M loc :=
  f ← deref df; alloc f.

(** [df[label]]. *)
Definition getitem (df : loc) (label : string) : M column :=
  f ← deref df;
  match f !! label with
  | Some c => mret c
  | None => raise (KeyError label)
  end.

(** [df[label] = c]: the object at [df] is updated in place. *)
Definition setitem (df : loc) (label : string) (c : column) : M unit := λ h,
  match h !! df with
  | Some f => (<[df := <[label := c]> f]> h, Ret ())
  | None => (h, Raise ReferenceError)
  end.

(** ** Column-level library operations *)

Section stages.

Variable libm_log : f64 → f64.

Variable in_bounds : date → bool.

(** Python's [float(text)], which decides whether an object column can
    be aggregated; the stages do not depend on what it computes. *)
Variable py_float : string → option f64.

(** [c / c.shift(1)] then [np.log].  On an object column the division
    raises as soon as a cell holds text, and [np.log] raises on any
    object cell. *)
Definition column_ln_returns (c : column) : result column :=
  match c with
  | FloatCol xs => Ret (FloatCol (ln_returns libm_log xs))
  | ObjCol [] => Ret (ObjCol [])
  | ObjCol _ => Raise TypeError
  end.

(** The [ValueError] raised for the text [s] at position [pos]. *)
Definition strptime_error (pos : nat) (s : string) (e : parse_error) : exn :=
  match e with
  | NoMatch => ValueError_time_data pos (RawStr s)
  | Unconverted r => ValueError_unconverted pos r
  | OutOfRange => ValueError_out_of_range pos
  | OutOfBounds => OutOfBoundsDatetime pos (RawStr s)
  end.

(** One object cell: a missing cell is a missing timestamp. *)
Definition parse_cell (regex : string → option (date * string))
    (c : option string) : parse_error + option date :=
  match c with
  | None => inr None
  | Some s => strptime in_bounds regex s
  end.

(** [pd.to_datetime(c, format=...)] from position [pos] on; the first
    cell that fails ends the conversion. *)
Fixpoint strptime_from (regex : string → option (date * string))
    (pos : nat) (cells : list (option string)) : result (list (option date)) :=
  match cells with
  | [] => Ret []
  | c :: rest =>
      match parse_cell regex c with
      | inl e => Raise (strptime_error pos (default "" c) e)
      | inr d =>
          match strptime_from regex (S pos) rest with
          | Ret ds => Ret (d :: ds)
          | Raise e => Raise e
          end
      end
  end.

(** On floats: NaN and the infinities are missing timestamps, any other
    number is printed and its text cannot match the pattern. *)
Fixpoint strptime_floats (pos : nat) (cells : list f64)
  : result (list (option date)) :=
  match cells with
  | [] => Ret []
  | x :: rest =>
      if isfinite x then Raise (ValueError_time_data pos (RawNum x))
      else match strptime_floats (S pos) rest with
           | Ret ds => Ret (None :: ds)
           | Raise e => Raise e
           end
  end.

Definition to_datetime (regex : string → option (date * string)) (c : column)
  : result (list (option date)) :=
  match c with
  | ObjCol cells => strptime_from regex 0 cells
  | FloatCol cells => strptime_floats 0 cells
  end.

(** [.dt.strftime('%d/%m/%Y')]: text, missing where the timestamp is. *)
Definition dt_strftime (ds : list (option date)) : column :=
  ObjCol ((λ d : option date, strftime_dmy <$> d) <$> ds).

Definition to_float64 (c : column) : option (list f64) :=
  match c with
  | FloatCol xs => Some xs
  | ObjCol cells =>
      mapM (λ o, match o with None => Some NaN | Some s => py_float s end) cells
  end.

(** [c.rolling(window=window).std()]: the window is validated when the
    rolling object is built, the data when it is aggregated. *)
Definition column_rolling_std (c : column) (window : Z) : result column :=
  if bool_decide (window < 0) then Raise ValueError_window
  else match to_float64 c with
       | Some xs => Ret (FloatCol (rolling_std (Z.to_nat window) xs))
       | None => Raise DataError
       end.

(** ** The stages *)

(** Lines 26-39. *)
Definition convert_date_format (df : loc) (date_column : string) : M loc :=
  df_copy ← df_copy df;
  c ← getitem df_copy date_column;
  ds ← lift (to_datetime regex_mdy c);
  _ ← setitem df_copy date_column (dt_strftime ds);
  mret df_copy.

(** Lines 74-87. *)
Definition calculate_ln_returns (df : loc) (price_column : string) : M loc :=
  df_copy ← df_copy df;
  c ← getitem df_copy price_column;
  _ ← getitem df_copy price_column;
  r ← lift (column_ln_returns c);
  _ ← setitem df_copy "ln_returns" r;
  mret df_copy.

(** Lines 89-103. *)
Definition calculate_rolling_volatility
    (df : loc) (returns_column : string) (window : Z) : M loc :=
  df_copy ← df_copy df;
  c ← getitem df_copy returns_column;
  v ← lift (column_rolling_std c window);
  _ ← setitem df_copy "rolling_volatility" v;
  mret df_copy.

(** ** Normalisation in [main], lines 147-150 *)

Definition reverse_column (c : column) : column :=
  match c with
  | FloatCol xs => FloatCol (reverse xs)
  | ObjCol xs => ObjCol (reverse xs)
  end.

(** [df.iloc[::-1]]: a new frame with the rows in reverse order. *)
Definition iloc_reversed (df : loc) : M loc :=
  f ← deref df; alloc (reverse_column <$> f).

(** [df.reset_index(drop=True)]: a new frame, same columns, default
    index. *)
Definition reset_index_drop (df : loc) : M loc :=
  f ← deref df; alloc f.

(** [read_csv_file] hands over a frame, or [None] after a read error. *)
Definition normalize (df : option loc) : M loc :=
  match df with
  | None => raise AttributeError
  | Some df =>
      r ← iloc_reversed df;
      df ← reset_index_drop r;
      convert_date_format df "Week of"
  end.

(** Lines 156-159 of [main]. *)
Definition price_label : string :=
  "Henry Hub Natural Gas Spot Price Dollars per Million Btu".

Definition volatility_window : Z := 156.

(** The two statistics stages in sequence, for any price column and
    window. *)
Definition returns_then_volatility
    (df : loc) (price_column : string) (window : Z) : M loc :=
  df_with_returns ← calculate_ln_returns df price_column;
  calculate_rolling_volatility df_with_returns "ln_returns" window.

Definition main_statistics (df : loc) : M loc :=
  returns_then_volatility df price_label volatility_window.

End stages.

(** ** Reading, printing and plotting *)

(** What [pd.read_csv] does with a path: a frame, [FileNotFoundError],
    or another exception with its message. *)
Inductive csv_outcome : Type :=
  | CsvFrame (f : frame)
  | CsvNotFound
  | CsvError (msg : string).

(** What the program shows: a printed line, the printed head of a frame,
    and a line handed to [ax.plot] with the title of its figure.  The
    rendering itself is outside the embedding. *)
Inductive event : Type :=
  | Print (s : string)
  | PrintHead (rows : frame)
  | Plot (title label : string) (x : list (option date)) (y : column).

(** Computations that also append to what is shown. *)
Definition IO (A : Type) : Type :=
  heap * list event → (heap * list event) * result A.

Global Instance IO_ret : MRet IO := λ A a w, (w, Ret a).

Global Instance IO_bind : MBind IO := λ A B f m w,
  match m w with
  | (w', Ret a) => f a w'
  | (w', Raise e) => (w', Raise e)
  end.

Definition run {A : Type} (m : M A) : IO A := λ w,
  match m w.1 with
  | (h', r) => ((h', w.2), r)
  end.

Definition emit (e : event) : IO unit := λ w, ((w.1, w.2 ++ [e]), Ret ()).

Definition io_lift {A : Type} (r : result A) : IO A := λ w, (w, r).

Definition column_length (c : column) : nat :=
  match c with
  | FloatCol xs => length xs
  | ObjCol xs => length xs
  end.

Definition column_take (n : nat) (c : column) : column :=
  match c with
  | FloatCol xs => FloatCol (take n xs)
  | ObjCol xs => ObjCol (take n xs)
  end.

(** [df.head()]: the first five rows. *)
Definition df_head (f : frame) : frame := column_take 5 <$> f.

(** [df.shape] as printed: rows, then columns.  Every column of a
    DataFrame has the length of its index. *)
Definition n_rows (f : frame) : nat :=
  map_fold (λ _ c n, Nat.max (column_length c) n) 0%nat f.

Definition shape_text (f : frame) : string :=
  "(" +:+ pretty (n_rows f) +:+ ", " +:+ pretty (size f) +:+ ")".

Definition price_title : string :=
  "Henry Hub Natural Gas Spot Price Over Time".

Definition volatility_title_base : string :=
  "Henry Hub Natural Gas Volatility Over Time".

(** Lines 126-128: the window is mentioned when it is given and not 0. *)
Definition volatility_title (window : option Z) : string :=
  match window with
  | Some w =>
      if bool_decide (w = 0) then volatility_title_base
      else volatility_title_base +:+ " (Window: " +:+ pretty w +:+ " weeks)"
  | None => volatility_title_base
  end.

Section program.

Variable libm_log : f64 → f64.

Variable in_bounds : date → bool.

Variable py_float : string → option f64.

(** The file system as [pd.read_csv] sees it. *)
Variable pd_read_csv : string → csv_outcome.

(** Lines 41-72, up to the data handed to the axes: the dates are read
    back under [%d/%m/%Y], the prices are read twice (line and fill). *)
Definition plot_price_over_time
    (df : loc) (date_column price_column : string) : IO unit :=
  c ← run (getitem df date_column);
  dates ← io_lift (to_datetime in_bounds regex_dmy c);
  y ← run (getitem df price_column);
  _ ← run (getitem df price_column);
  emit (Plot price_title "Spot Price" dates y).

(** Lines 105-140, likewise. *)
Definition plot_volatility_over_time
    (df : loc) (date_column volatility_column : string) (window : option Z)
  : IO unit :=
  c ← run (getitem df date_column);
  dates ← io_lift (to_datetime in_bounds regex_dmy c);
  y ← run (getitem df volatility_column);
  _ ← run (getitem df volatility_column);
  emit (Plot (volatility_title window) "Rolling Volatility" dates y).

(** Lines 5-23: every exception of the read is caught and reported. *)
Definition read_csv_file (file_path : string) : IO (option loc) :=
  match pd_read_csv file_path with
  | CsvFrame f => df ← run (alloc f); mret (Some df)
  | CsvNotFound =>
      _ ← emit (Print ("Error: File not found at " +:+ file_path));
      mret None
  | CsvError e =>
      _ ← emit (Print ("Error reading CSV file: " +:+ e));
      mret None
  end.

Definition csv_file_path : string := "Henry_Hub_Natural_Gas_Spot_Price.csv".

(** Lines 142-161.  After line 150 [df] is a frame, so the test of line
    151 holds whenever it is reached. *)
Definition main : IO unit :=
  df ← read_csv_file csv_file_path;
  df ← run (normalize in_bounds df);
  f ← run (deref df);
  _ ← emit (Print ("Successfully loaded data with shape: " +:+ shape_text f));
  _ ← emit (PrintHead (df_head f));
  _ ← plot_price_over_time df "Week of" price_label;
  df_with_returns ← run (calculate_ln_returns libm_log df price_label);
  df_with_volatility ←
    run (calculate_rolling_volatility py_float df_with_returns "ln_returns"
           volatility_window);
  plot_volatility_over_time df_with_volatility "Week of" "rolling_volatility"
    (Some volatility_window).

End program.

(** ** Transformations of the input used in the statements *)

(** The date with day and month exchanged. *)
Definition swap_day_month (d : date) : date :=
  Date (year d) (day d) (month d).

(** ** Outcome of a stage *)

(** Every stage copies its argument, reads one column of the copy,
    computes a new column from it and stores that in the copy. *)
Definition stage_outcome (h : heap) (df : loc) (label out : string)
    (op : column → result column) : heap * result loc :=
  match h !! df with
  | None => (h, Raise ReferenceError)
  | Some f =>
      let l := fresh (dom h) in
      match f !! label with
      | None => (<[l := f]> h, Raise (KeyError label))
      | Some c =>
          match op c with
          | Raise e => (<[l := f]> h, Raise e)
          | Ret v => (<[l := <[out := v]> f]> h, Ret l)
          end
      end
  end.

(** What a stage may do to the heap: every object that was there is as
    it was, and a returned frame is a new object. *)
Definition frame_condition (h : heap) (out : heap * result nat) : Prop :=
  h ⊆ out.1 ∧
  match out.2 with
  | Ret l => h !! l = None ∧ is_Some (out.1 !! l)
  | Raise _ => True
  end.

(** ** What an error mentions *)



(** ** Predicates on prices *)

(** Strictly positive and strictly negative cells, infinities included. *)
Definition fpositive (v : f64) : Prop :=
  match v with PInf | S754_finite false _ _ => True | _ => False end.

Definition fnegative (v : f64) : Prop :=
  match v with NInf | S754_finite true _ _ => True | _ => False end.

(** A finite, strictly positive price. *)
Definition positive_price (v : f64) : Prop :=
  match v with S754_finite false _ _ => True | _ => False end.

(** Two finite, non-zero prices of the same sign. *)
Definition same_sign_finite (a b : f64) : Prop :=
  ∃ s ma ea mb eb, a = S754_finite s ma ea ∧ b = S754_finite s mb eb.

(** A zero of either sign. *)
Definition fzero (v : f64) : Prop :=
  match v with S754_zero _ => True | _ => False end.

(** The library logarithm of a positive finite float64 is a finite
    float64: the logarithms of the positive floats lie between -745 and
    710. *)
Definition log_finite (libm_log : f64 → f64) : Prop :=
  ∀ m e, isfinite (libm_log (S754_finite false m e)) = true.

(** ** The reference statistic *)

Definition fsum (xs : list f64) : f64 := foldl fadd f64_zero xs.

(** The unbiased sample standard deviation in the spec's words, computed
    in float64 in two passes: the square root of the sum of squared
    deviations from the mean, divided by the number of samples less
    one. *)
Definition sample_std (xs : list f64) : f64 :=
  let mean := fdiv (fsum xs) (f64_of_nat (length xs)) in
  fsqrt (fdiv (fsum ((λ x, fmul (fsub x mean) (fsub x mean)) <$> xs))
              (f64_of_nat (length xs - 1))).

(** ** Sample data *)

(** [np.log] where the examples need it: [np.log(2.0)] is
    0.6931471805599453; any other argument gets a finite placeholder. *)
Definition f64_ln2 : f64 := S754_finite false 6243314768165359 (-53).

Definition sample_log (x : f64) : f64 :=
  if decide (x = f64_of_Z 2) then f64_ln2 else f64_zero.

(** The three-week scenario: prices 2.00, 2.10, 2.00. *)
Definition sample_prices : list f64 :=
  [f64_of_Z 2; f64_of_decimal 21 1; f64_of_Z 2].

Definition sample_frame : frame := {[ "price" := FloatCol sample_prices ]}.

Definition sample_heap : heap := {[ 0%nat := sample_frame ]}.

Definition sign_change_prices : list f64 := [f64_of_Z 2; f64_of_Z (-1)].

Definition zero_prices : list f64 := [f64_of_Z 2; f64_zero; f64_of_Z 3].

Definition negative_prices : list f64 := [f64_of_Z (-2); f64_of_Z (-4)].




Definition sample_returns : list f64 := [NaN; f64_of_Z 1; f64_of_Z 3].

Definition sample_returns_frame : frame :=
  {[ "ln_returns" := FloatCol sample_returns ]}.

Definition sample_returns_heap : heap := {[ 0%nat := sample_returns_frame ]}.


(** No text reads as a float: enough for frames of float columns. *)
Definition no_float : string → option f64 := λ _, None.

(** Three weeks of raw data, newest first. *)
Definition weekly_frame : frame :=
  {[ "Week of" := ObjCol (Some <$> ["01/19/2020"; "01/12/2020"; "01/05/2020"]);
     price_label := FloatCol sample_prices ]}.




(** A repeated date. *)
Definition duplicate_frame : frame :=
  {[ "Week of" := ObjCol [Some "01/12/2020"; Some "01/12/2020";
                          Some "01/19/2020"];
     price_label := FloatCol [f64_of_Z 2; f64_of_Z 3; f64_of_Z 4] ]}.

(** ** Further predicates and sample data *)

(** A timestamp that [to_datetime] produced. *)
Definition representable (in_bounds : date → bool) (o : option date) : Prop :=
  ∀ d, o = Some d → valid_date d = true ∧ in_bounds d = true.

(** A date whose day is at most 12 survives the second conversion with
    day and month exchanged. *)
Definition swappable (in_bounds : date → bool) (o : option date) : Prop :=
  ∀ d, o = Some d →
       day d ≤ 12 ∧ in_bounds (swap_day_month d) = true.

(** Dates whose day is at most 12, and a missing one. *)
Definition early_days_frame : frame :=
  {[ "Week of" := ObjCol [Some "03/12/2020"; Some "03/05/2020"; None] ]}.

(** Three weeks of raw data, oldest first. *)
Definition chronological_frame : frame :=
  {[ "Week of" := ObjCol (Some <$> ["01/05/2020"; "01/12/2020"; "01/19/2020"]);
     price_label := FloatCol sample_prices ]}.

(** ** Observations of a window *)

(** The number of cells that are not NaN: what [nobs] counts. *)
Fixpoint count_obs (xs : list f64) : nat :=
  match xs with
  | [] => 0
  | v :: rest => ((if isnan v then 0 else 1) + count_obs rest)%nat
  end.

(** ** Tactics *)

Ltac run_stage :=
  cbv beta iota zeta delta
    [stage_outcome mbind M_bind mret M_ret df_copy getitem setitem deref
     alloc raise lift];
  repeat (rewrite ?lookup_insert_eq, ?insert_insert_eq;
          try match goal with
              | |- context [match ?m !! ?k with _ => _ end] =>
                  destruct (m !! k) eqn:?
              | |- context [match ?r with Ret _ => _ | Raise _ => _ end] =>
                  destruct r eqn:?
              end;
          cbv beta iota zeta);
  try reflexivity; try congruence.

Ltac bool_to_Z :=
  rewrite ?Z.eqb_eq, ?Z.eqb_neq, ?Z.leb_le, ?Z.leb_gt, ?Z.ltb_lt, ?Z.ltb_ge
    in *.

Ltac lia_div := Z.div_mod_to_equations; lia.


(** * Properties *)

(** ** Rounding keeps the sign *)

Lemma shr_1_nonneg (mrs : shr_record) :
  0 ≤ shr_m mrs → 0 ≤ shr_m (shr_1 mrs).
Proof.
  destruct mrs as [m r s]. destruct m as [|[p|p|]|[p|p|]]; simpl; lia.
Qed.

Lemma iter_shr_1_nonneg (p : positive) (mrs : shr_record) :
  0 ≤ shr_m mrs → 0 ≤ shr_m (SpecFloat.iter_pos shr_1 p mrs).
Proof.
  revert mrs. induction p as [p IH | p IH |]; intros mrs Hm; simpl.
  - apply IH, IH. by apply shr_1_nonneg.
  - by apply IH, IH.
  - by apply shr_1_nonneg.
Qed.

Lemma shr_record_of_loc_m (m : Z) (l : location) :
  shr_m (shr_record_of_loc m l) = m.
Proof. by destruct l as [|[]]. Qed.

Lemma shr_fexp_nonneg (m e : Z) (l : location) :
  0 ≤ m → 0 ≤ shr_m (shr_fexp 53 1024 m e l).1.
Proof.
  intros Hm. unfold shr_fexp, shr.
  destruct (fexp 53 1024 (Z.add (Zdigits2 m) e) - e)%Z as [|p|p]; simpl;
    rewrite ?shr_record_of_loc_m; try done.
  apply iter_shr_1_nonneg. by rewrite shr_record_of_loc_m.
Qed.

Lemma round_nearest_even_nonneg (m : Z) (l : location) :
  0 ≤ m → 0 ≤ round_nearest_even m l.
Proof.
  intros Hm. destruct l as [|[]]; simpl; try lia.
  destruct (Z.even m); lia.
Qed.

(** Rounding a non-negative mantissa gives a zero, a finite number or an
    infinity of the sign asked for, never NaN. *)
Lemma binary_round_aux_cases (sx : bool) (mx ex : Z) (lx : location) :
  0 ≤ mx →
  binary_round_aux 53 1024 sx mx ex lx = S754_zero sx ∨
  binary_round_aux 53 1024 sx mx ex lx = S754_infinity sx ∨
  ∃ m e, binary_round_aux 53 1024 sx mx ex lx = S754_finite sx m e.
Proof.
  intros Hm. unfold binary_round_aux.
  pose proof (shr_fexp_nonneg mx ex lx Hm) as H1.
  destruct (shr_fexp 53 1024 mx ex lx) as [mrs' e']. simpl in H1.
  pose proof (shr_fexp_nonneg
                (round_nearest_even (shr_m mrs') (loc_of_shr_record mrs'))
                e' loc_Exact (round_nearest_even_nonneg _ _ H1)) as H2.
  destruct (shr_fexp 53 1024 _ e' loc_Exact) as [mrs'' e'']. simpl in H2.
  destruct (shr_m mrs'') as [|m|m]; [by left | | lia].
  destruct (Z.leb e'' (1024 - 53)); [right; right; by eexists _, _ |].
  right; by left.
Qed.

Lemma SFdiv_core_binary_nonneg (m1 m2 : positive) (e1 e2 : Z) :
  0 ≤ (SFdiv_core_binary 53 1024 (Zpos m1) e1 (Zpos m2) e2).1.1.
Proof.
  unfold SFdiv_core_binary.
  set (s := (e1 - e2 - _)%Z).
  set (m' := match s with Zpos _ => Z.shiftl (Zpos m1) s | Z0 => Zpos m1
             | Zneg _ => Z0 end).
  assert (Hm' : 0 ≤ m').
  { unfold m'. destruct s; try lia. apply Z.shiftl_nonneg. lia. }
  pose proof (Z.div_pos m' (Zpos m2) Hm' ltac:(lia)) as Hq.
  unfold Z.div in Hq.
  destruct (Z.div_eucl m' (Zpos m2)) as [q r]. done.
Qed.

(** The quotient of two finite numbers is a zero, a finite number or an
    infinity whose sign is the product of the signs. *)
Lemma fdiv_finite (sx sy : bool) (mx my : positive) (ex ey : Z) :
  let q := fdiv (S754_finite sx mx ex) (S754_finite sy my ey) in
  q = S754_zero (xorb sx sy) ∨ q = S754_infinity (xorb sx sy) ∨
  ∃ m e, q = S754_finite (xorb sx sy) m e.
Proof.
  simpl. unfold fdiv, SFdiv.
  pose proof (SFdiv_core_binary_nonneg mx my ex ey) as Hq.
  destruct (SFdiv_core_binary 53 1024 (Zpos mx) ex (Zpos my) ey)
    as [[mz ez] lz]. simpl in Hq.
  by apply binary_round_aux_cases.
Qed.

(** ** The return of one step *)

(** [np.log] gives a number only on a positive finite argument. *)
Lemma flog_defined libm_log (q : f64) :
  defined (flog libm_log q) → ∃ m e, q = S754_finite false m e.
Proof.
  unfold defined. destruct q as [s|[]| |[] m e]; simpl; try done.
  intros _. by eexists _, _.
Qed.

(** A positive finite quotient comes from two finite numbers of the
    same sign. *)
Lemma fdiv_positive_finite (a b : f64) (m : positive) (e : Z) :
  fdiv b a = S754_finite false m e →
  ∃ s ma ea mb eb, a = S754_finite s ma ea ∧ b = S754_finite s mb eb.
Proof.
  destruct a as [sa|sa| |sa ma ea], b as [sb|sb| |sb mb eb]; try done.
  intros Hq.
  destruct (fdiv_finite sb sa mb ma eb ea) as [Hz | [Hi | (m' & e' & Hf)]];
    simpl in *; rewrite Hq in *; try done.
  injection Hf as Hs _ _. exists sa, ma, ea, mb, eb.
  destruct sa, sb; done.
Qed.

(** The return of one step, [np.log(b / a)], is a number only when both
    prices are finite, non-zero and of the same sign, and their float64
    quotient neither overflows nor underflows to zero. *)
Lemma flog_fdiv_defined libm_log (a b : f64) :
  defined (flog libm_log (fdiv b a)) →
  (∃ s ma ea mb eb, a = S754_finite s ma ea ∧ b = S754_finite s mb eb) ∧
  ∃ m e, fdiv b a = S754_finite false m e.
Proof.
  intros Hdef. apply flog_defined in Hdef as (m & e & Hq).
  split; [by eapply fdiv_positive_finite | by eexists _, _].
Qed.

(** On such a quotient the return is the library logarithm of it. *)
Lemma flog_positive_finite libm_log (m : positive) (e : Z) :
  flog libm_log (S754_finite false m e) = libm_log (S754_finite false m e).
Proof. reflexivity. Qed.

(** Two finite prices of the same sign: the quotient is positive, and
    the return is its logarithm, or an infinity when the division
    overflows or underflows. *)
Lemma flog_fdiv_same_sign libm_log (s : bool) (ma mb : positive) (ea eb : Z) :
  let q := fdiv (S754_finite s mb eb) (S754_finite s ma ea) in
  (q = S754_zero false ∧ flog libm_log q = NInf) ∨
  (q = PInf ∧ flog libm_log q = PInf) ∨
  (∃ m e, q = S754_finite false m e ∧ flog libm_log q = libm_log q).
Proof.
  simpl.
  destruct (fdiv_finite s s mb ma eb ea) as [Hz | [Hi | (m & e & Hf)]];
    simpl in *; rewrite xorb_nilpotent in *.
  - left. by rewrite Hz.
  - right; left. by rewrite Hi.
  - right; right. exists m, e. by rewrite Hf.
Qed.

Lemma flog_fdiv_sign_change libm_log (a b : f64) :
  fpositive a → fnegative b →
  flog libm_log (fdiv b a) = NaN ∨ flog libm_log (fdiv b a) = NInf.
Proof.
  destruct a as [sa|[]| |[] ma ea], b as [sb|[]| |[] mb eb]; try done;
    intros _ _; try (by left); try (by right).
  destruct (fdiv_finite true false mb ma eb ea) as [Hz | [Hi | (m & e & Hf)]];
    simpl in *.
  - right. by rewrite Hz.
  - left. by rewrite Hi.
  - left. by rewrite Hf.
Qed.

Lemma not_defined_NaN : ¬ defined NaN.
Proof. done. Qed.

Lemma not_defined_inf (s : bool) : ¬ defined (S754_infinity s).
Proof. done. Qed.

(** ** Log returns, cell by cell *)

Lemma length_shift1 (xs : list f64) : length (shift1 xs) = length xs.
Proof. unfold shift1. rewrite length_take. simpl. lia. Qed.

Lemma length_ln_returns libm_log (prices : list f64) :
  length (ln_returns libm_log prices) = length prices.
Proof.
  unfold ln_returns, np_log, series_div.
  rewrite length_fmap, length_zip_with, length_shift1. lia.
Qed.

Lemma fdiv_NaN_r (a : f64) : fdiv a NaN = NaN.
Proof. by destruct a. Qed.

Lemma ln_returns_head libm_log (p : f64) (prices : list f64) :
  ln_returns libm_log (p :: prices) !! 0%nat = Some NaN.
Proof.
  unfold ln_returns, np_log, series_div, shift1.
  change (take (length (p :: prices)) (NaN :: p :: prices))
    with (NaN :: take (length prices) (p :: prices)).
  simpl. by rewrite fdiv_NaN_r.
Qed.

Lemma ln_returns_step libm_log (prices : list f64) (i : nat) (a b : f64) :
  prices !! i = Some a → prices !! S i = Some b →
  ln_returns libm_log prices !! S i = Some (flog libm_log (fdiv b a)).
Proof.
  intros Ha Hb. unfold ln_returns, np_log, series_div, shift1.
  rewrite list_lookup_fmap, lookup_zip_with, Hb. simpl.
  apply lookup_lt_Some in Hb.
  rewrite lookup_take_lt by lia. simpl. by rewrite Ha.
Qed.

Lemma ln_returns_lookup libm_log (prices : list f64) (i : nat) (v : f64) :
  ln_returns libm_log prices !! i = Some v →
  (i = 0%nat ∧ v = NaN) ∨
  ∃ j a b, i = S j ∧ prices !! j = Some a ∧ prices !! S j = Some b ∧
           v = flog libm_log (fdiv b a).
Proof.
  intros Hv.
  assert (Hi : (i < length prices)%nat).
  { rewrite <- (length_ln_returns libm_log). by eapply lookup_lt_Some. }
  destruct i as [|j].
  - left. split; [done |]. destruct prices as [|p ps]; [simpl in Hi; lia |].
    rewrite ln_returns_head in Hv. congruence.
  - right. destruct (lookup_lt_is_Some_2 prices j) as [a Ha]; [lia |].
    destruct (lookup_lt_is_Some_2 prices (S j)) as [b Hb]; [lia |].
    exists j, a, b. repeat split; try done.
    rewrite (ln_returns_step _ _ _ _ _ Ha Hb) in Hv. congruence.
Qed.

Lemma ln_returns_first libm_log (prices : list f64) (v : f64) :
  ln_returns libm_log prices !! 0%nat = Some v → v = NaN.
Proof.
  intros Hv.
  by destruct (ln_returns_lookup _ _ _ _ Hv) as [[_ ->] | (j & ? & ? & ? & _)].
Qed.

(** ** The rolling kernel: how many observations a window holds *)

Lemma count_obs_app (xs ys : list f64) :
  count_obs (xs ++ ys) = (count_obs xs + count_obs ys)%nat.
Proof. induction xs as [|x xs IH]; simpl; [done | rewrite IH; lia]. Qed.

Lemma count_obs_le (xs : list f64) : (count_obs xs ≤ length xs)%nat.
Proof. induction xs as [|x xs IH]; simpl; [done | destruct (isnan x); lia]. Qed.

Lemma count_obs_full (xs : list f64) :
  count_obs xs = length xs → Forall (λ v, isnan v = false) xs.
Proof.
  induction xs as [|x xs IH]; simpl; [by constructor |].
  pose proof (count_obs_le xs). destruct (isnan x) eqn:Hx; [lia |].
  intros Hlen. constructor; [done | apply IH; lia].
Qed.

Lemma nobs_add_var (v : f64) (st : var_state) :
  nobs (add_var v st) = ((if isnan v then 0 else 1) + nobs st)%nat.
Proof. unfold add_var. by destruct (isnan v). Qed.

Lemma nobs_remove_var (v : f64) (st : var_state) :
  nobs (remove_var v st) = (nobs st - (if isnan v then 0 else 1))%nat.
Proof.
  unfold remove_var. destruct (isnan v); [simpl; lia |].
  by destruct (nobs st - 1 =? 0)%nat.
Qed.

Lemma nobs_foldl_add_var (xs : list f64) (st : var_state) :
  nobs (foldl (λ st v, add_var v st) st xs) = (nobs st + count_obs xs)%nat.
Proof.
  revert st. induction xs as [|x xs IH]; intros st; simpl; [lia |].
  rewrite IH, nobs_add_var. lia.
Qed.

Lemma nobs_foldl_remove_var (xs : list f64) (st : var_state) :
  nobs (foldl (λ st v, remove_var v st) st xs) = (nobs st - count_obs xs)%nat.
Proof.
  revert st. induction xs as [|x xs IH]; intros st; simpl; [lia |].
  rewrite IH, nobs_remove_var. lia.
Qed.

Lemma slice_app (a b c : nat) (xs : list f64) :
  (a ≤ b ≤ c)%nat → slice a c xs = slice a b xs ++ slice b c xs.
Proof.
  intros Habc. unfold slice.
  replace (c - a)%nat with ((b - a) + (c - b))%nat by lia.
  rewrite <- take_take_drop, drop_drop. do 3 f_equal. lia.
Qed.

Lemma length_slice (a b : nat) (xs : list f64) :
  (b ≤ length xs)%nat → length (slice a b xs) = (b - a)%nat.
Proof. intros Hb. unfold slice. rewrite length_take, length_drop. lia. Qed.

Lemma slice_lookup (a b k : nat) (xs : list f64) :
  (k < b - a)%nat → slice a b xs !! k = xs !! (a + k)%nat.
Proof.
  intros Hk. unfold slice. rewrite lookup_take_lt by done. apply lookup_drop.
Qed.

(** After the turn of position [i] the state has counted the cells of
    the window of [i] that are not NaN. *)
Lemma nobs_roll_var_step (w : nat) (values : list f64) (i : nat)
    (st : var_state) :
  (i < length values)%nat →
  (i = 0%nat ∨
   nobs st =
     count_obs (slice (window_start w (length values) (i - 1)) i values)) →
  nobs (roll_var_step w values i st) =
    count_obs (slice (window_start w (length values) i) (S i) values).
Proof.
  intros Hi Hinv. unfold roll_var_step.
  destruct ((i =? 0)%nat || (i <=? window_start w (length values) i)%nat)
    eqn:Hreset.
  - by rewrite nobs_foldl_add_var.
  - apply orb_false_iff in Hreset as [Hi0 Hs].
    apply Nat.eqb_neq in Hi0. apply Nat.leb_gt in Hs.
    destruct Hinv as [? | Hinv]; [done |].
    rewrite nobs_foldl_add_var, nobs_foldl_remove_var, Hinv.
    set (s' := window_start w (length values) (i - 1)).
    set (s := window_start w (length values) i).
    assert (Hss : (s' ≤ s)%nat) by (unfold s', s, window_start; lia).
    rewrite (slice_app s' s i) by lia.
    rewrite (slice_app s i (S i)) by lia.
    rewrite !count_obs_app. lia.
Qed.

Lemma length_roll_var_from (w minp ddof : nat) (values : list f64)
    (i count : nat) (st : var_state) :
  length (roll_var_from w minp ddof values i count st) = count.
Proof.
  revert i st. induction count as [|count IH]; intros i st; simpl;
    [done | by rewrite IH].
Qed.

(** A cell of the rolling variance that is not NaN: its window holds at
    least [minp] and more than [ddof] cells that are not NaN. *)
Lemma roll_var_from_not_nan (w minp ddof : nat) (values : list f64)
    (count i : nat) (st : var_state) (k : nat) (v : f64) :
  (i + count ≤ length values)%nat →
  (i = 0%nat ∨
   nobs st =
     count_obs (slice (window_start w (length values) (i - 1)) i values)) →
  roll_var_from w minp ddof values i count st !! k = Some v →
  v ≠ NaN →
  let obs :=
    count_obs (slice (window_start w (length values) (i + k)) (S (i + k))
                 values) in
  (minp ≤ obs ∧ ddof < obs)%nat.
Proof.
  revert i st k. induction count as [|count IH]; intros i st k Hlen Hinv;
    simpl; [done |].
  pose proof (nobs_roll_var_step w values i st ltac:(lia) Hinv) as Hnobs.
  destruct k as [|k]; simpl.
  - intros [= <-] Hv. rewrite Nat.add_0_r, <- Hnobs.
    unfold calc_var in Hv.
    destruct ((minp <=? nobs (roll_var_step w values i st))%nat &&
              (ddof <? nobs (roll_var_step w values i st))%nat) eqn:Hminp;
      [| done].
    apply andb_true_iff in Hminp as [H1 H2].
    apply Nat.leb_le in H1. apply Nat.ltb_lt in H2. done.
  - intros Hk Hv.
    replace (i + S k)%nat with (S i + k)%nat by lia.
    eapply (IH (S i)); [lia | | done | done].
    right. by rewrite Nat.sub_succ, Nat.sub_0_r.
Qed.

Lemma zsqrt_NaN : zsqrt NaN = NaN.
Proof. reflexivity. Qed.

Lemma prep_value_not_nan (x : f64) :
  isnan (prep_value x) = false → isfinite x = true.
Proof. by destruct x. Qed.

Lemma length_rolling_std (w : nat) (xs : list f64) :
  length (rolling_std w xs) = length xs.
Proof.
  unfold rolling_std, roll_var.
  by rewrite length_fmap, length_roll_var_from, length_fmap.
Qed.

(** An output cell that is not NaN: the window has at least two cells,
    is full, and every return in it is a finite number. *)
Lemma rolling_std_not_nan (w : nat) (xs : list f64) (i : nat) (v : f64) :
  rolling_std w xs !! i = Some v → v ≠ NaN →
  (2 ≤ w ∧ w ≤ S i)%nat ∧
  ∀ j, (S i - w ≤ j ≤ i)%nat → ∃ x, xs !! j = Some x ∧ isfinite x = true.
Proof.
  intros Hv Hnan.
  assert (Hi : (i < length xs)%nat).
  { rewrite <- (length_rolling_std w). by eapply lookup_lt_Some. }
  unfold rolling_std, roll_var in Hv.
  rewrite list_lookup_fmap in Hv.
  destruct (roll_var_from _ _ _ _ _ _ _ !! i) as [u|] eqn:Hu; [| done].
  injection Hv as <-.
  assert (Hunan : u ≠ NaN) by (intros ->; by apply Hnan).
  apply roll_var_from_not_nan in Hu; [| simpl; lia | by left | done].
  rename Hu into Hobs. simpl in Hobs. rewrite length_fmap in Hobs.
  set (win := slice (window_start w (length xs) i) (S i) (prep_value <$> xs))
    in Hobs.
  pose proof (count_obs_le win) as Hle.
  assert (Hwin : length win = (S i - window_start w (length xs) i)%nat).
  { unfold win. apply length_slice. rewrite length_fmap. lia. }
  assert (Hs : window_start w (length xs) i = (S i - w)%nat)
    by (unfold window_start; lia).
  rewrite Hs in Hwin.
  assert (Hw : (2 ≤ w ∧ w ≤ S i)%nat) by lia.
  split; [done |]. intros j Hj.
  assert (Hfull : count_obs win = length win) by lia.
  apply count_obs_full in Hfull. rewrite Forall_lookup in Hfull.
  destruct (lookup_lt_is_Some_2 xs j) as [x Hx]; [lia |].
  exists x. split; [done |]. apply prep_value_not_nan.
  apply (Hfull (j - (S i - w))%nat).
  unfold win. rewrite Hs, slice_lookup by lia.
  rewrite list_lookup_fmap.
  replace (S i - w + (j - (S i - w)))%nat with j by lia.
  by rewrite Hx.
Qed.

(** A return that is not a finite number in the window leaves NaN. *)
Lemma rolling_std_gap (w : nat) (xs : list f64) (k p : nat) (v u : f64) :
  rolling_std w xs !! k = Some v →
  (S k - w ≤ p ≤ k)%nat →
  xs !! p = Some u → ¬ defined u →
  v = NaN.
Proof.
  intros Hv Hp Hu Hundef.
  destruct (decide (v = NaN)) as [| Hnan]; [done |].
  destruct (rolling_std_not_nan _ _ _ _ Hv Hnan) as [_ Hall].
  destruct (Hall p Hp) as (x & Hx & Hfin).
  rewrite Hx in Hu. injection Hu as <-. by destruct Hundef.
Qed.

Lemma all_NaN (n : nat) (xs : list f64) :
  length xs = n → (∀ i v, xs !! i = Some v → v = NaN) →
  xs = replicate n NaN.
Proof.
  intros Hlen Hall. apply list_eq. intros i.
  destruct (xs !! i) as [v|] eqn:Hv.
  - pose proof (lookup_lt_Some _ _ _ Hv) as Hi.
    rewrite lookup_replicate_2 by lia. f_equal. by eapply Hall.
  - apply lookup_ge_None in Hv. symmetry. apply lookup_ge_None.
    rewrite length_replicate. lia.
Qed.

(** A window of fewer than two cells never yields a number. *)
Lemma rolling_std_small_window (w : nat) (xs : list f64) :
  (w ≤ 1)%nat → rolling_std w xs = replicate (length xs) NaN.
Proof.
  intros Hw. apply all_NaN; [apply length_rolling_std |].
  intros i v Hv. destruct (decide (v = NaN)) as [| Hnan]; [done |].
  destruct (rolling_std_not_nan _ _ _ _ Hv Hnan) as [? _]. lia.
Qed.

(** Nor does a window longer than the series. *)
Lemma rolling_std_long_window (w : nat) (xs : list f64) :
  (length xs < w)%nat → rolling_std w xs = replicate (length xs) NaN.
Proof.
  intros Hw. apply all_NaN; [apply length_rolling_std |].
  intros i v Hv. destruct (decide (v = NaN)) as [| Hnan]; [done |].
  pose proof (lookup_lt_Some _ _ _ Hv) as Hi.
  rewrite length_rolling_std in Hi.
  destruct (rolling_std_not_nan _ _ _ _ Hv Hnan) as [? _]. lia.
Qed.

(** Over log returns the first [w] positions are NaN: the window of
    position [w - 1] holds the leading NaN. *)
Lemma rolling_std_ln_returns_leading libm_log (w : nat) (prices : list f64)
    (i : nat) (v : f64) :
  rolling_std w (ln_returns libm_log prices) !! i = Some v →
  (i < w)%nat → v = NaN.
Proof.
  intros Hv Hi. destruct (decide (v = NaN)) as [| Hnan]; [done |].
  destruct (rolling_std_not_nan _ _ _ _ Hv Hnan) as [Hw Hall].
  destruct (Hall 0%nat) as (x & Hx & Hfin); [lia |].
  apply ln_returns_first in Hx. by subst x.
Qed.

(** The window as long as the series always contains the leading NaN. *)
Lemma rolling_std_whole_series libm_log (prices : list f64) :
  rolling_std (length prices) (ln_returns libm_log prices) =
  replicate (length prices) NaN.
Proof.
  apply all_NaN; [by rewrite length_rolling_std, length_ln_returns |].
  intros i v Hv. apply (rolling_std_ln_returns_leading _ _ _ _ _ Hv).
  apply lookup_lt_Some in Hv.
  by rewrite length_rolling_std, length_ln_returns in Hv.
Qed.

(** ** The volatility is never negative *)



(** ** Running the stages *)

Lemma fresh_not_allocated (h : heap) : h !! fresh (dom h) = None.
Proof. apply not_elem_of_dom, is_fresh. Qed.

Lemma convert_date_format_run in_bounds (h : heap) (df : loc)
    (date_column : string) :
  convert_date_format in_bounds df date_column h =
  stage_outcome h df date_column date_column
    (λ c, match to_datetime in_bounds regex_mdy c with
          | Ret ds => Ret (dt_strftime ds)
          | Raise e => Raise e
          end).
Proof. unfold convert_date_format. run_stage. Qed.

Lemma calculate_ln_returns_run libm_log (h : heap) (df : loc)
    (price_column : string) :
  calculate_ln_returns libm_log df price_column h =
  stage_outcome h df price_column "ln_returns" (column_ln_returns libm_log).
Proof. unfold calculate_ln_returns. run_stage. Qed.

Lemma calculate_rolling_volatility_run py_float (h : heap) (df : loc)
    (returns_column : string) (window : Z) :
  calculate_rolling_volatility py_float df returns_column window h =
  stage_outcome h df returns_column "rolling_volatility"
    (λ c, column_rolling_std py_float c window).
Proof. unfold calculate_rolling_volatility. run_stage. Qed.

Lemma calculate_ln_returns_float libm_log (h : heap) (df : loc) (f : frame)
    (price_column : string) (prices : list f64) :
  h !! df = Some f →
  f !! price_column = Some (FloatCol prices) →
  calculate_ln_returns libm_log df price_column h =
  (<[fresh (dom h) := <["ln_returns" := FloatCol (ln_returns libm_log prices)]>
    f]> h,
   Ret (fresh (dom h))).
Proof.
  intros Hdf Hcol. rewrite calculate_ln_returns_run.
  unfold stage_outcome. by rewrite Hdf, Hcol.
Qed.

Lemma calculate_rolling_volatility_float py_float (h : heap) (df : loc)
    (f : frame) (returns_column : string) (returns : list f64) (window : Z) :
  h !! df = Some f →
  f !! returns_column = Some (FloatCol returns) →
  0 ≤ window →
  calculate_rolling_volatility py_float df returns_column window h =
  (<[fresh (dom h) :=
       <["rolling_volatility" :=
           FloatCol (rolling_std (Z.to_nat window) returns)]> f]> h,
   Ret (fresh (dom h))).
Proof.
  intros Hdf Hcol Hw. rewrite calculate_rolling_volatility_run.
  unfold stage_outcome, column_rolling_std. rewrite Hdf, Hcol.
  by rewrite bool_decide_eq_false_2 by lia.
Qed.

(** ** Log returns *)




(** C10: where a positive price is followed by a negative one the stage
    returns normally and the return at the later position is not a
    number: it is NaN, or [-inf] when the quotient is a negative zero
    (the earlier price infinite, or the division underflowing). *)
Theorem calculate_ln_returns_sign_change libm_log (h : heap) (df : loc)
    (f : frame) (price_column : string) (prices : list f64) (i : nat)
    (a b : f64) :
  h !! df = Some f →
  f !! price_column = Some (FloatCol prices) →
  (1 ≤ i)%nat →
  prices !! (i - 1)%nat = Some a → prices !! i = Some b →
  fpositive a → fnegative b →
  ∃ (df' : loc) (returns : list f64) (v : f64),
    calculate_ln_returns libm_log df price_column h =
      (<[df' := <["ln_returns" := FloatCol returns]> f]> h, Ret df') ∧
    returns !! i = Some v ∧ ¬ defined v ∧ (v = NaN ∨ v = NInf).
Proof.
  intros Hdf Hcol Hi Ha Hb Hpos Hneg.
  destruct i as [|j]; [lia |].
  replace (S j - 1)%nat with j in Ha by lia.
  exists (fresh (dom h)), (ln_returns libm_log prices),
    (flog libm_log (fdiv b a)).
  split; [by apply calculate_ln_returns_float |].
  split; [by apply ln_returns_step |].
  destruct (flog_fdiv_sign_change libm_log a b Hpos Hneg) as [-> | ->];
    (split; [done | by auto]).
Qed.

Lemma calculate_ln_returns_sign_change_witness :
  ∃ (df' : loc) (returns : list f64) (v : f64),
    calculate_ln_returns sample_log 0%nat "price"
      {[ 0%nat := {[ "price" := FloatCol sign_change_prices ]} ]} =
      (<[df' := <["ln_returns" := FloatCol returns]>
                  {[ "price" := FloatCol sign_change_prices ]}]>
         {[ 0%nat := {[ "price" := FloatCol sign_change_prices ]} ]},
       Ret df') ∧
    returns !! 1%nat = Some v ∧ ¬ defined v ∧ (v = NaN ∨ v = NInf).
Proof.
  apply (calculate_ln_returns_sign_change sample_log
           {[ 0%nat := {[ "price" := FloatCol sign_change_prices ]} ]}
           0%nat {[ "price" := FloatCol sign_change_prices ]} "price"
           sign_change_prices 1%nat (f64_of_Z 2) (f64_of_Z (-1)));
    try reflexivity; try lia; by vm_compute.
Defined.

(** ** Rolling volatility *)



(** C4, as the code has it: a window of 0 or 1 raises nothing and yields
    a series of the same length whose every cell is NaN; only a negative
    window raises, with pandas' own [ValueError], and the input frame is
    as before. *)
Theorem calculate_rolling_volatility_small_window py_float (h : heap)
    (df : loc) (f : frame) (returns_column : string)
    (returns : list f64) (window : Z) :
  h !! df = Some f →
  f !! returns_column = Some (FloatCol returns) →
  window ≤ 1 →
  (0 ≤ window →
   ∃ df' : loc,
     calculate_rolling_volatility py_float df returns_column window h =
       (<[df' := <["rolling_volatility" :=
                     FloatCol (replicate (length returns) NaN)]> f]> h,
        Ret df')) ∧
  (window < 0 →
   ∃ h' : heap,
     calculate_rolling_volatility py_float df returns_column window h =
       (h', Raise ValueError_window) ∧
     h' !! df = Some f).
Proof.
  intros Hdf Hcol Hw. split.
  - intros Hpos. exists (fresh (dom h)).
    rewrite (calculate_rolling_volatility_float _ _ _ _ _ _ _ Hdf Hcol Hpos).
    by rewrite rolling_std_small_window by lia.
  - intros Hneg. exists (<[fresh (dom h) := f]> h). split.
    + rewrite calculate_rolling_volatility_run.
      unfold stage_outcome, column_rolling_std. rewrite Hdf, Hcol.
      by rewrite bool_decide_eq_true_2 by done.
    + rewrite lookup_insert_ne; [done |].
      intros Heq. pose proof (fresh_not_allocated h) as Hfresh.
      rewrite Heq in Hfresh. congruence.
Qed.

Lemma calculate_rolling_volatility_small_window_witness :
  (0 ≤ 1 →
   ∃ df' : loc,
     calculate_rolling_volatility no_float 0%nat "ln_returns" 1
       sample_returns_heap =
       (<[df' := <["rolling_volatility" :=
                     FloatCol (replicate (length sample_returns) NaN)]>
                   sample_returns_frame]> sample_returns_heap,
        Ret df')) ∧
  (1 < 0 →
   ∃ h' : heap,
     calculate_rolling_volatility no_float 0%nat "ln_returns" 1
       sample_returns_heap = (h', Raise ValueError_window) ∧
     h' !! 0%nat = Some sample_returns_frame).
Proof.
  apply (calculate_rolling_volatility_small_window no_float
           sample_returns_heap 0%nat sample_returns_frame "ln_returns"
           sample_returns 1); [reflexivity | reflexivity | lia].
Defined.

(** C4 fails as stated: with window 1 the stage returns a frame. *)
Lemma calculate_rolling_volatility_window_one :
  calculate_rolling_volatility no_float 0%nat "ln_returns" 1
    sample_returns_heap =
  (<[1%nat := <["rolling_volatility" := FloatCol [NaN; NaN; NaN]]>
                sample_returns_frame]> sample_returns_heap,
   Ret 1%nat).
Proof.
  rewrite (calculate_rolling_volatility_float no_float sample_returns_heap
             0%nat sample_returns_frame "ln_returns" sample_returns 1)
    by (reflexivity || lia).
  rewrite rolling_std_small_window by (simpl; lia).
  reflexivity.
Qed.

(** ** Returns, then volatility *)

Lemma returns_then_volatility_float libm_log py_float (h : heap) (df : loc)
    (f : frame) (price_column : string) (prices : list f64) (window : Z) :
  h !! df = Some f →
  f !! price_column = Some (FloatCol prices) →
  0 ≤ window →
  ∃ (h' : heap) (df' : loc),
    returns_then_volatility libm_log py_float df price_column window h
      = (h', Ret df') ∧
    h' !! df' =
      Some (<["rolling_volatility" :=
                FloatCol (rolling_std (Z.to_nat window)
                    (ln_returns libm_log prices))]>
              (<["ln_returns" := FloatCol (ln_returns libm_log prices)]> f)) ∧
    h' !! df = Some f.
Proof.
  intros Hdf Hcol Hw.
  set (f1 := <["ln_returns" := FloatCol (ln_returns libm_log prices)]> f).
  set (h1 := <[fresh (dom h) := f1]> h).
  set (f2 := <["rolling_volatility" :=
                 FloatCol (rolling_std (Z.to_nat window)
                     (ln_returns libm_log prices))]>
                   f1).
  exists (<[fresh (dom h1) := f2]> h1), (fresh (dom h1)).
  assert (Hne : fresh (dom h) ≠ df).
  { intros Heq. pose proof (fresh_not_allocated h) as Hfresh.
    rewrite Heq in Hfresh. congruence. }
  assert (Hdf1 : h1 !! df = Some f).
  { unfold h1. by rewrite lookup_insert_ne. }
  assert (Hne1 : fresh (dom h1) ≠ df).
  { intros Heq. pose proof (fresh_not_allocated h1) as Hfresh.
    rewrite Heq in Hfresh. congruence. }
  split; [| split].
  - unfold returns_then_volatility, mbind, M_bind.
    rewrite (calculate_ln_returns_float libm_log _ _ _ _ _ Hdf Hcol).
    apply calculate_rolling_volatility_float; [| | done].
    + apply lookup_insert_eq.
    + apply lookup_insert_eq.
  - apply lookup_insert_eq.
  - by rewrite lookup_insert_ne.
Qed.

(** C5, as the code has it: over the returns of a price series of
    length [n], the window [n] yields no number at all: the output has
    length [n] and every cell is NaN, because the only full window holds
    the leading NaN of the returns. *)
Theorem returns_then_volatility_full_window libm_log py_float (h : heap)
    (df : loc) (f : frame) (price_column : string) (prices : list f64)
    (window : Z) :
  h !! df = Some f →
  f !! price_column = Some (FloatCol prices) →
  window = Z.of_nat (length prices) →
  ∃ (h' : heap) (df' : loc) (returns vol : list f64),
    returns_then_volatility libm_log py_float df price_column window h
      = (h', Ret df') ∧
    h' !! df' = Some (<["rolling_volatility" := FloatCol vol]>
                        (<["ln_returns" := FloatCol returns]> f)) ∧
    length vol = length prices ∧
    ∀ (i : nat) (v : f64), vol !! i = Some v → v = NaN.
Proof.
  intros Hdf Hcol ->.
  destruct (returns_then_volatility_float libm_log py_float h df f
              price_column prices (Z.of_nat (length prices)) Hdf Hcol)
    as (h' & df' & Hrun & Hout & _); [lia |].
  exists h', df', (ln_returns libm_log prices),
    (rolling_std (Z.to_nat (Z.of_nat (length prices)))
       (ln_returns libm_log prices)).
  split; [done |]. split; [done |].
  split; [by rewrite length_rolling_std, length_ln_returns |].
  intros i v Hv. rewrite Nat2Z.id, rolling_std_whole_series in Hv.
  by apply lookup_replicate in Hv as [-> _].
Qed.

Lemma returns_then_volatility_full_window_witness :
  ∃ (h' : heap) (df' : loc) (returns vol : list f64),
    returns_then_volatility sample_log no_float 0%nat "price" 3 sample_heap
      = (h', Ret df') ∧
    h' !! df' = Some (<["rolling_volatility" := FloatCol vol]>
                        (<["ln_returns" := FloatCol returns]> sample_frame)) ∧
    length vol = length sample_prices ∧
    ∀ (i : nat) (v : f64), vol !! i = Some v → v = NaN.
Proof.
  apply (returns_then_volatility_full_window sample_log no_float sample_heap
           0%nat sample_frame "price" sample_prices 3); reflexivity.
Defined.

(** C5 fails as stated: three positive prices give the window 3 no
    defined value, the last position included. *)
Lemma full_window_yields_nothing :
  Forall positive_price sample_prices ∧
  ∃ (h' : heap) (df' : loc) (returns : list f64),
    returns_then_volatility sample_log no_float 0%nat "price" 3 sample_heap
      = (h', Ret df') ∧
    h' !! df' = Some (<["rolling_volatility" := FloatCol [NaN; NaN; NaN]]>
                        (<["ln_returns" := FloatCol returns]> sample_frame)).
Proof.
  split; [repeat constructor |].
  destruct (returns_then_volatility_float sample_log no_float sample_heap
              0%nat sample_frame "price" sample_prices 3)
    as (h' & df' & Hrun & Hout & _); [reflexivity | reflexivity | lia |].
  exists h', df', (ln_returns sample_log sample_prices). split; [done |].
  change (Z.to_nat 3) with (length sample_prices) in Hout.
  by rewrite rolling_std_whole_series in Hout.
Qed.

(** ** Zero, negative and missing prices *)

Lemma ln_returns_zero_here libm_log (prices : list f64) (i : nat) (z : f64) :
  prices !! i = Some z → fzero z →
  ∃ u, ln_returns libm_log prices !! i = Some u ∧ ¬ defined u.
Proof.
  intros Hi Hz. pose proof (lookup_lt_Some _ _ _ Hi) as Hlt.
  destruct i as [|j].
  - destruct prices as [|p ps]; [done |].
    exists NaN. split; [apply ln_returns_head | apply not_defined_NaN].
  - destruct (lookup_lt_is_Some_2 prices j) as [a Ha]; [lia |].
    exists (flog libm_log (fdiv z a)).
    split; [by apply ln_returns_step |].
    intros Hdef.
    apply flog_fdiv_defined in Hdef as [(s & ma & ea & mb & eb & _ & ->) _].
    done.
Qed.

Lemma ln_returns_zero_next libm_log (prices : list f64) (i : nat) (z : f64) :
  prices !! i = Some z → fzero z → (S i < length prices)%nat →
  ∃ u, ln_returns libm_log prices !! S i = Some u ∧ ¬ defined u.
Proof.
  intros Hi Hz Hlt.
  destruct (lookup_lt_is_Some_2 prices (S i)) as [b Hb]; [lia |].
  exists (flog libm_log (fdiv b z)).
  split; [by apply ln_returns_step |].
  intros Hdef.
  apply flog_fdiv_defined in Hdef as [(s & ma & ea & mb & eb & -> & _) _].
  done.
Qed.

(** C3, as the code has it: nothing raises.  For [i >= 1] the return at
    [i] is a number only if both prices are finite, non-zero and of the
    same sign and their float64 quotient is a positive finite number; so
    it is undefined when either price is NaN, infinite or zero or when
    the signs differ.  Where the quotient is a positive finite number,
    two negative prices included, the return is the library logarithm
    of the quotient, which is a number as long as the library returns
    one; two prices of the same sign whose quotient overflows or
    underflows give [+inf] and [-inf].  A zero price leaves the return
    undefined there and at the next position, and every volatility
    window that overlaps either position is NaN. *)
Theorem returns_then_volatility_undefined libm_log py_float (h : heap)
    (df : loc) (f : frame) (price_column : string) (prices : list f64)
    (window : Z) :
  h !! df = Some f →
  f !! price_column = Some (FloatCol prices) →
  0 ≤ window →
  ∃ (h' : heap) (df' : loc) (returns vol : list f64),
    returns_then_volatility libm_log py_float df price_column window h
      = (h', Ret df') ∧
    h' !! df' = Some (<["rolling_volatility" := FloatCol vol]>
                        (<["ln_returns" := FloatCol returns]> f)) ∧
    (∀ (i : nat) (a b : f64),
       (1 ≤ i)%nat → prices !! (i - 1)%nat = Some a → prices !! i = Some b →
       ∃ v, returns !! i = Some v ∧
            (defined v → same_sign_finite a b ∧ positive_price (fdiv b a)) ∧
            (positive_price (fdiv b a) → v = libm_log (fdiv b a)) ∧
            (log_finite libm_log → positive_price (fdiv b a) → defined v) ∧
            (same_sign_finite a b →
             positive_price (fdiv b a) ∨
             (fdiv b a = PInf ∧ v = PInf) ∨
             (fdiv b a = S754_zero false ∧ v = NInf))) ∧
    (∀ (i p : nat) (z : f64),
       prices !! i = Some z → fzero z → p = i ∨ p = S i →
       (p < length prices)%nat →
       (∃ u, returns !! p = Some u ∧ ¬ defined u) ∧
       ∀ (k : nat) (v : f64),
         (S k - Z.to_nat window ≤ p ≤ k)%nat → vol !! k = Some v → v = NaN).
Proof.
  intros Hdf Hcol Hw.
  destruct (returns_then_volatility_float libm_log py_float h df f
              price_column prices window Hdf Hcol Hw)
    as (h' & df' & Hrun & Hout & _).
  exists h', df', (ln_returns libm_log prices),
    (rolling_std (Z.to_nat window) (ln_returns libm_log prices)).
  split; [done |]. split; [done |]. split.
  - intros i a b Hi Ha Hb. destruct i as [|j]; [lia |].
    replace (S j - 1)%nat with j in Ha by lia.
    exists (flog libm_log (fdiv b a)). split; [by apply ln_returns_step |].
    split; [| split; [| split]].
    + intros Hdef. apply flog_fdiv_defined in Hdef as [Hsame (m & e & Hq)].
      split; [done | by rewrite Hq].
    + by destruct (fdiv b a) as [| | |[] m e].
    + intros Hlog Hq. destruct (fdiv b a) as [| | |[] m e]; try done.
      apply Hlog.
    + intros (s & ma & ea & mb & eb & -> & ->).
      destruct (flog_fdiv_same_sign libm_log s ma mb ea eb)
        as [[Hq Hv] | [[Hq Hv] | (m & e & Hq & Hv)]].
      * right; right. by rewrite Hv.
      * right; left. by rewrite Hv.
      * left. by rewrite Hq.
  - intros i p z Hzero Hz Hp Hlt.
    assert (Hu : ∃ u, ln_returns libm_log prices !! p = Some u ∧ ¬ defined u).
    { destruct Hp as [-> | ->].
      - by eapply ln_returns_zero_here.
      - by eapply ln_returns_zero_next. }
    split; [done |]. intros k v Hk Hv.
    destruct Hu as (u & Hu & Hundef).
    by eapply rolling_std_gap.
Qed.

Lemma sample_log_finite : log_finite sample_log.
Proof. intros m e. unfold sample_log. by case_decide. Qed.

Lemma returns_then_volatility_undefined_witness :
  ∃ (h' : heap) (df' : loc) (returns vol : list f64),
    returns_then_volatility sample_log no_float 0%nat "price" 2
      {[ 0%nat := {[ "price" := FloatCol zero_prices ]} ]} = (h', Ret df') ∧
    h' !! df' = Some (<["rolling_volatility" := FloatCol vol]>
                        (<["ln_returns" := FloatCol returns]>
                           {[ "price" := FloatCol zero_prices ]})) ∧
    (∀ (i : nat) (a b : f64),
       (1 ≤ i)%nat →
       zero_prices !! (i - 1)%nat = Some a → zero_prices !! i = Some b →
       ∃ v, returns !! i = Some v ∧
            (defined v → same_sign_finite a b ∧ positive_price (fdiv b a)) ∧
            (positive_price (fdiv b a) → v = sample_log (fdiv b a)) ∧
            (log_finite sample_log → positive_price (fdiv b a) → defined v) ∧
            (same_sign_finite a b →
             positive_price (fdiv b a) ∨
             (fdiv b a = PInf ∧ v = PInf) ∨
             (fdiv b a = S754_zero false ∧ v = NInf))) ∧
    (∀ (i p : nat) (z : f64),
       zero_prices !! i = Some z → fzero z → p = i ∨ p = S i →
       (p < length zero_prices)%nat →
       (∃ u, returns !! p = Some u ∧ ¬ defined u) ∧
       ∀ (k : nat) (v : f64),
         (S k - Z.to_nat 2 ≤ p ≤ k)%nat → vol !! k = Some v → v = NaN).
Proof.
  apply (returns_then_volatility_undefined sample_log no_float
           {[ 0%nat := {[ "price" := FloatCol zero_prices ]} ]} 0%nat
           {[ "price" := FloatCol zero_prices ]} "price" zero_prices 2);
    [reflexivity | reflexivity | lia].
Defined.

(** C3 fails as stated: the price at position 0 is negative, and the
    return at position 1 is a number, [np.log(2.0)]. *)
Lemma negative_prices_defined_return :
  negative_prices !! 0%nat = Some (f64_of_Z (-2)) ∧
  fnegative (f64_of_Z (-2)) ∧
  calculate_ln_returns sample_log 0%nat "price"
    {[ 0%nat := {[ "price" := FloatCol negative_prices ]} ]} =
  (<[1%nat := <["ln_returns" := FloatCol [NaN; f64_ln2]]>
                {[ "price" := FloatCol negative_prices ]}]>
     {[ 0%nat := {[ "price" := FloatCol negative_prices ]} ]},
   Ret 1%nat) ∧
  defined f64_ln2.
Proof.
  split; [reflexivity |]. split; [by vm_compute |]. split; [| reflexivity].
  rewrite (calculate_ln_returns_float sample_log _ 0%nat
             {[ "price" := FloatCol negative_prices ]} "price"
             negative_prices) by reflexivity.
  assert (Hret : ln_returns sample_log negative_prices = [NaN; f64_ln2])
    by (by vm_compute).
  rewrite Hret. reflexivity.
Qed.

(** ** Frame conditions *)

Lemma stage_outcome_frame_condition (h : heap) (df : loc)
    (label out : string) (op : column → result column) :
  frame_condition h (stage_outcome h df label out op).
Proof.
  pose proof (fresh_not_allocated h) as Hfresh.
  unfold frame_condition, stage_outcome.
  destruct (h !! df) as [f|]; [| done].
  destruct (f !! label) as [c|]; [destruct (op c) |]; simpl;
    repeat split; try by apply insert_subseteq.
  - done.
  - rewrite lookup_insert_eq. by eexists.
Qed.

(** C9: each of the three stages leaves every object of the heap, its
    argument included, exactly as it was, whatever it is given, and the
    frame it returns is a new object. *)
Theorem stages_leave_input_unchanged libm_log in_bounds py_float (h : heap)
    (df : loc)
    (label : string) (window : Z) :
  frame_condition h (convert_date_format in_bounds df label h) ∧
  frame_condition h (calculate_ln_returns libm_log df label h) ∧
  frame_condition h (calculate_rolling_volatility py_float df label window h).
Proof.
  rewrite convert_date_format_run, calculate_ln_returns_run,
    calculate_rolling_volatility_run.
  repeat split; apply stage_outcome_frame_condition.
Qed.

(** ** Normalisation *)

Lemma lookup_reverse_column (f : frame) (label : string) :
  (reverse_column <$> f) !! label = reverse_column <$> (f !! label).
Proof. apply lookup_fmap. Qed.

Lemma normalize_dates in_bounds (h : heap) (df : loc) (f : frame)
    (cells : list (option string)) :
  h !! df = Some f →
  f !! "Week of" = Some (ObjCol cells) →
  ∃ (h2 : heap),
    h2 !! df = Some f ∧ fresh (dom h2) ≠ df ∧
    normalize in_bounds (Some df) h =
    match strptime_from in_bounds regex_mdy 0 (reverse cells) with
    | Ret ds =>
        (<[fresh (dom h2) :=
             <["Week of" := dt_strftime ds]> (reverse_column <$> f)]> h2,
         Ret (fresh (dom h2)))
    | Raise e =>
        (<[fresh (dom h2) := reverse_column <$> f]> h2, Raise e)
    end.
Proof.
  intros Hdf Hcol.
  set (fr := reverse_column <$> f).
  set (h1 := <[fresh (dom h) := fr]> h).
  set (h2 := <[fresh (dom h1) := fr]> h1).
  assert (Hfresh : ∀ g : heap, is_Some (g !! df) → fresh (dom g) ≠ df).
  { intros g [x Hx] Heq. pose proof (fresh_not_allocated g) as Hg.
    rewrite Heq in Hg. congruence. }
  assert (Hdf1 : h1 !! df = Some f).
  { unfold h1. rewrite lookup_insert_ne; [done | by apply Hfresh]. }
  assert (Hdf2 : h2 !! df = Some f).
  { unfold h2. rewrite lookup_insert_ne; [done | by apply Hfresh]. }
  exists h2. split; [done |]. split; [by apply Hfresh |].
  unfold normalize, iloc_reversed, reset_index_drop.
  cbv beta iota zeta delta [mbind M_bind deref alloc].
  rewrite Hdf. fold fr. fold h1.
  assert (Hl1 : h1 !! fresh (dom h) = Some fr) by apply lookup_insert_eq.
  rewrite Hl1. fold h2.
  rewrite convert_date_format_run. unfold stage_outcome.
  assert (Hl2 : h2 !! fresh (dom h1) = Some fr) by apply lookup_insert_eq.
  rewrite Hl2. unfold fr at 1. rewrite lookup_reverse_column, Hcol. simpl.
  by destruct (strptime_from in_bounds regex_mdy 0 (reverse cells)).
Qed.

(** Conversion succeeds exactly when every cell parses. *)
Lemma strptime_from_Ret in_bounds regex (pos : nat) (cells : list
    (option string))
    (ds : list (option date)) :
  strptime_from in_bounds regex pos cells = Ret ds ↔
  Forall2 (λ c d, parse_cell in_bounds regex c = inr d) cells ds.
Proof.
  revert pos ds. induction cells as [|c cells IH]; intros pos ds; simpl.
  - split.
    + intros [= <-]. constructor.
    + intros Hall. by inversion Hall.
  - destruct (parse_cell in_bounds regex c) as [e|d] eqn:Hc.
    + split; [done |]. intros Hall. inversion Hall; congruence.
    + destruct (strptime_from in_bounds regex (S pos) cells)
      as [ds'|e] eqn:Hrest.
      * split.
        -- intros [= <-]. constructor; [done |]. by apply (IH (S pos)).
        -- intros Hall. inversion Hall as [|? d' ? ds'' Hd Hds]; subst.
           apply (IH (S pos)) in Hds. congruence.
      * split; [done |].
        intros Hall. inversion Hall as [|? d' ? ds'' Hd Hds]; subst.
        apply (IH (S pos)) in Hds. congruence.
Qed.



(** ** Malformed dates *)




(** A date of the year 1500 matches the pattern and names a calendar
    day, but lies before the first nanosecond timestamp: the error
    quotes its text. *)
Example out_of_bounds_date_quoted :
  ∃ h' : heap,
    normalize in_ns_bounds (Some 0%nat)
      {[ 0%nat := {[ "Week of" := ObjCol [Some "01/01/1500"] ]} ]} =
    (h', Raise (OutOfBoundsDatetime 0 (RawStr "01/01/1500"))).
Proof.
  destruct (normalize_dates in_ns_bounds
              {[ 0%nat := {[ "Week of" := ObjCol [Some "01/01/1500"] ]} ]}
              0%nat {[ "Week of" := ObjCol [Some "01/01/1500"] ]}
              [Some "01/01/1500"])
    as (h2 & _ & _ & Hrun); [reflexivity | reflexivity |].
  eexists. rewrite Hrun. reflexivity.
Qed.

(** ** Order of the dates *)

(** When every date parses, normalisation returns the records in
    reverse order with their dates rewritten, all of them. *)
Lemma normalize_parsed in_bounds (h : heap) (df : loc) (f : frame)
    (cells : list (option string)) (ds : list (option date)) :
  h !! df = Some f →
  f !! "Week of" = Some (ObjCol cells) →
  Forall2 (λ c d, parse_cell in_bounds regex_mdy c = inr d) cells ds →
  ∃ (h' : heap) (df' : loc),
    normalize in_bounds (Some df) h = (h', Ret df') ∧
    h' !! df' = Some (<["Week of" := dt_strftime (reverse ds)]>
                        (reverse_column <$> f)) ∧
    h' !! df = Some f.
Proof.
  intros Hdf Hcol Hall.
  destruct (normalize_dates in_bounds h df f cells Hdf Hcol)
    as (h2 & Hdf2 & Hne & Hrun).
  apply Forall2_reverse, (strptime_from_Ret in_bounds regex_mdy 0) in Hall.
  rewrite Hall in Hrun.
  eexists _, _. split; [exact Hrun |]. split.
  - apply lookup_insert_eq.
  - by rewrite lookup_insert_ne.
Qed.

(** C7, as the code has it: normalisation checks no order.  When every
    date parses it raises nothing and drops or merges nothing: the
    output holds every record, in reverse order, with its date rewritten,
    whether or not the reversed dates repeat or decrease. *)
Theorem normalize_keeps_every_record in_bounds (h : heap) (df : loc) (f : frame)
    (cells : list (option string)) (ds : list (option date)) :
  h !! df = Some f →
  f !! "Week of" = Some (ObjCol cells) →
  Forall2 (λ c d, parse_cell in_bounds regex_mdy c = inr d) cells ds →
  ∃ (h' : heap) (df' : loc) (out : list (option string)),
    normalize in_bounds (Some df) h = (h', Ret df') ∧
    h' !! df' = Some (<["Week of" := ObjCol out]> (reverse_column <$> f)) ∧
    length out = length cells ∧
    ∀ (i : nat) (d : option date),
      ds !! i = Some d →
      out !! (length cells - 1 - i)%nat = Some (strftime_dmy <$> d).
Proof.
  intros Hdf Hcol Hall.
  destruct (normalize_parsed in_bounds h df f cells ds Hdf Hcol Hall)
    as (h' & df' & Hrun & Hout & _).
  pose proof (Forall2_length _ _ _ Hall) as Hlen.
  exists h', df',
    ((λ d : option date, strftime_dmy <$> d) <$> reverse ds).
  split; [done |]. split; [done |]. split.
  - by rewrite length_fmap, length_reverse.
  - intros i d Hi. pose proof (lookup_lt_Some _ _ _ Hi) as Hlt.
    rewrite list_lookup_fmap, reverse_lookup by lia.
    replace (length ds - S (length cells - 1 - i))%nat with i by lia.
    by rewrite Hi.
Qed.

Lemma normalize_keeps_every_record_witness :
  ∃ (h' : heap) (df' : loc) (out : list (option string)),
    normalize in_ns_bounds (Some 0%nat) {[ 0%nat := duplicate_frame ]}
      = (h', Ret df') ∧
    h' !! df' = Some (<["Week of" := ObjCol out]>
                        (reverse_column <$> duplicate_frame)) ∧
    length out = 3%nat ∧
    ∀ (i : nat) (d : option date),
      [Some (Date 2020 1 12); Some (Date 2020 1 12); Some (Date 2020 1 19)]
        !! i = Some d →
      out !! (3 - 1 - i)%nat = Some (strftime_dmy <$> d).
Proof.
  apply (normalize_keeps_every_record in_ns_bounds {[ 0%nat :=
      duplicate_frame ]}
    0%nat
           duplicate_frame
           [Some "01/12/2020"; Some "01/12/2020"; Some "01/19/2020"]
           [Some (Date 2020 1 12); Some (Date 2020 1 12);
            Some (Date 2020 1 19)]).
  - reflexivity.
  - reflexivity.
  - repeat constructor.
Defined.

(** C7 fails as stated: the raw dates, once reversed, decrease and then
    repeat, and normalisation returns them all. *)
Lemma duplicate_dates_returned :
  ∃ (h' : heap) (df' : loc),
    normalize in_ns_bounds (Some 0%nat) {[ 0%nat := duplicate_frame ]}
      = (h', Ret df') ∧
    h' !! df' =
      Some (<["Week of" := ObjCol [Some "19/01/2020"; Some "12/01/2020";
                                   Some "12/01/2020"]]>
              (reverse_column <$> duplicate_frame)).
Proof.
  destruct (normalize_parsed in_ns_bounds {[ 0%nat := duplicate_frame ]} 0%nat
              duplicate_frame
              [Some "01/12/2020"; Some "01/12/2020"; Some "01/19/2020"]
              [Some (Date 2020 1 12); Some (Date 2020 1 12);
               Some (Date 2020 1 19)])
    as (h' & df' & Hrun & Hout & _);
    [reflexivity | reflexivity | repeat constructor |].
  by exists h', df'.
Qed.

(** ** Printing and reading a date back *)

Lemma digit_of_char_of_digit (k : Z) :
  0 ≤ k ≤ 9 → digit_of (char_of_digit k) = Some k.
Proof.
  intros Hk.
  assert (Hcases : k = 0 ∨ k = 1 ∨ k = 2 ∨ k = 3 ∨ k = 4 ∨
                   k = 5 ∨ k = 6 ∨ k = 7 ∨ k = 8 ∨ k = 9) by lia.
  repeat destruct Hcases as [-> | Hcases]; try reflexivity.
  by subst.
Qed.

Lemma pad2_append (n : Z) (r : string) :
  pad2 n +:+ r =
  String (char_of_digit (n / 10)) (String (char_of_digit (n mod 10)) r).
Proof. reflexivity. Qed.

Lemma alt2_pad2 (p : Z → Z → bool) (n : Z) (r : string) :
  0 ≤ n < 100 →
  alt2 p (pad2 n +:+ r) = if p (n / 10) (n mod 10) then [(n, r)] else [].
Proof.
  intros Hn. rewrite pad2_append. unfold alt2.
  rewrite !digit_of_char_of_digit by lia_div.
  by replace (10 * (n / 10) + n mod 10) with n by lia_div.
Qed.

Lemma match_d_pad2 (d : Z) (r : string) :
  1 ≤ d ≤ 31 → ∃ tl, match_d (pad2 d +:+ r) = (d, r) :: tl.
Proof.
  intros Hd. unfold match_d. rewrite !alt2_pad2 by lia.
  destruct (d / 10 =? 3) eqn:H3, (d mod 10 <=? 1) eqn:H1,
    (1 <=? d / 10) eqn:H10, (d / 10 <=? 2) eqn:H2,
    (d / 10 =? 0) eqn:H0, (1 <=? d mod 10) eqn:H11;
    simpl; try (eexists; reflexivity); bool_to_Z; lia_div.
Qed.

Lemma match_m_pad2 (m : Z) (r : string) :
  1 ≤ m ≤ 12 → ∃ tl, match_m (pad2 m +:+ r) = (m, r) :: tl.
Proof.
  intros Hm. unfold match_m. rewrite !alt2_pad2 by lia.
  destruct (m / 10 =? 1) eqn:H1, (m mod 10 <=? 2) eqn:H2,
    (m / 10 =? 0) eqn:H0, (1 <=? m mod 10) eqn:H11;
    simpl; try (eexists; reflexivity); bool_to_Z; lia_div.
Qed.

Lemma match_Y_pad4 (y : Z) (r : string) :
  0 ≤ y ≤ 9999 → match_Y (pad4 y +:+ r) = [(y, r)].
Proof.
  intros Hy. unfold match_Y.
  change (pad4 y +:+ r) with (pad2 (y / 100) +:+ pad2 (y mod 100) +:+ r).
  rewrite alt2_pad2 by lia_div. csimpl.
  rewrite !digit_of_char_of_digit by lia_div. csimpl.
  do 2 f_equal. lia_div.
Qed.

Lemma days_in_month_le (y m : Z) : days_in_month y m ≤ 31.
Proof.
  unfold days_in_month.
  repeat match goal with
         | |- context [match ?x with _ => _ end] => destruct x
         | |- context [if ?b then _ else _] => destruct b
         end; lia.
Qed.

Lemma valid_date_bounds (d : date) :
  valid_date d = true →
  1 ≤ year d ≤ 9999 ∧ 1 ≤ month d ≤ 12 ∧ 1 ≤ day d ≤ 31.
Proof.
  unfold valid_date. intros Hv.
  pose proof (days_in_month_le (year d) (month d)) as Hdim.
  repeat (apply andb_prop in Hv as [Hv ?]). bool_to_Z. lia.
Qed.

Lemma regex_dmy_strftime (d : date) :
  valid_date d = true → regex_dmy (strftime_dmy d) = Some (d, "").
Proof.
  intros Hv. apply valid_date_bounds in Hv as (Hy & Hm & Hd).
  destruct d as [y m dd]. simpl in *.
  unfold regex_dmy, strftime_dmy. simpl year; simpl month; simpl day.
  destruct (match_d_pad2 dd ("/" +:+ pad2 m +:+ "/" +:+ pad4 y) Hd)
    as [tl1 ->].
  csimpl.
  destruct (match_m_pad2 m ("/" +:+ pad4 y +:+ "") Hm) as [tl2 Hm2].
  change ("" +:+ pad2 m +:+ "/" +:+ pad4 y)
    with (pad2 m +:+ "/" +:+ pad4 y +:+ "").
  rewrite Hm2. csimpl.
  change ("" +:+ pad4 y +:+ "") with (pad4 y +:+ "").
  rewrite match_Y_pad4 by lia.
  reflexivity.
Qed.

Lemma strptime_Some in_bounds regex (s : string) (d : date) :
  strptime in_bounds regex s = inr (Some d) →
  valid_date d = true ∧ in_bounds d = true.
Proof.
  unfold strptime. case_bool_decide; [done |].
  destruct (regex s) as [[d' rest]|]; [| done].
  case_bool_decide; [done |].
  destruct (valid_date d') eqn:Hv; simpl; [| done].
  destruct (in_bounds d') eqn:Hb; simpl; [| done].
  by intros [= <-].
Qed.

Lemma strftime_dmy_not_missing (d : date) :
  ¬ (strftime_dmy d = "" ∨ strftime_dmy d ∈ nat_strings).
Proof.
  unfold strftime_dmy, nat_strings. rewrite pad2_append.
  intros [Hempty | Hnat]; [done |].
  repeat (apply elem_of_cons in Hnat as [Hnat | Hnat]; [done |]).
  by apply elem_of_nil in Hnat.
Qed.

(** What [strftime] prints, [to_datetime] reads back under the same
    format. *)
Lemma strptime_dmy_strftime in_bounds (d : date) :
  valid_date d = true → in_bounds d = true →
  strptime in_bounds regex_dmy (strftime_dmy d) = inr (Some d).
Proof.
  intros Hv Hb. unfold strptime.
  rewrite bool_decide_eq_false_2 by apply strftime_dmy_not_missing.
  rewrite (regex_dmy_strftime d Hv).
  rewrite bool_decide_eq_false_2 by (intros H; by apply H).
  by rewrite Hv, Hb.
Qed.

Lemma date_lt_spec (a b : date) :
  date_lt a b ↔
  year a < year b ∨
  (year a = year b ∧
   (month a < month b ∨ (month a = month b ∧ day a < day b))).
Proof.
  unfold date_lt, date_ltb.
  rewrite !orb_true_iff, !andb_true_iff, !orb_true_iff, !andb_true_iff.
  by bool_to_Z.
Qed.

Lemma date_lt_trans (a b c : date) : date_lt a b → date_lt b c → date_lt a c.
Proof. rewrite !date_lt_spec. lia. Qed.

(** Decreasing step by step means decreasing between any two
    positions. *)
Lemma decreasing_pairs (ds : list date) :
  (∀ i a b, ds !! i = Some a → ds !! S i = Some b → date_lt b a) →
  ∀ i j a b, (i < j)%nat → ds !! i = Some a → ds !! j = Some b → date_lt b a.
Proof.
  intros Hstep i j a b Hij Ha. revert b.
  induction Hij as [|j Hij IH]; intros b Hb.
  - by apply (Hstep i).
  - destruct (lookup_lt_is_Some_2 ds j) as [c Hc].
    { apply lookup_lt_Some in Hb. lia. }
    apply date_lt_trans with c; [by apply (Hstep j) | by apply IH].
Qed.

(** ** Reverse-chronological input *)

(** C8: when the raw dates all parse and each is strictly later than
    the one after it, normalisation returns a frame whose dates, read
    back under [%d/%m/%Y], are strictly increasing from the first record
    to the last, every other column being reversed along. *)
Theorem normalize_strictly_increasing in_bounds (h : heap) (df : loc)
    (f : frame)
    (raw : list string) (ds : list date) :
  h !! df = Some f →
  f !! "Week of" = Some (ObjCol (Some <$> raw)) →
  Forall2 (λ s d, strptime in_bounds regex_mdy s = inr (Some d)) raw ds →
  (∀ i a b, ds !! i = Some a → ds !! S i = Some b → date_lt b a) →
  ∃ (h' : heap) (df' : loc) (out : list string) (ds' : list date),
    normalize in_bounds (Some df) h = (h', Ret df') ∧
    h' !! df' = Some (<["Week of" := ObjCol (Some <$> out)]>
                        (reverse_column <$> f)) ∧
    length out = length raw ∧
    Forall2 (λ s d, strptime in_bounds regex_dmy s = inr (Some d)) out ds' ∧
    ds' = reverse ds ∧
    ∀ i j a b, (i < j)%nat →
               ds' !! i = Some a → ds' !! j = Some b → date_lt a b.
Proof.
  intros Hdf Hcol Hparse Hdecr.
  assert (Hcells : Forall2 (λ c d, parse_cell in_bounds regex_mdy c = inr d)
                     (Some <$> raw) (Some <$> ds)).
  { by apply Forall2_fmap_2. }
  destruct (normalize_parsed in_bounds h df f _ _ Hdf Hcol Hcells)
    as (h' & df' & Hrun & Hout & _).
  pose proof (Forall2_length _ _ _ Hparse) as Hlen.
  exists h', df', (strftime_dmy <$> reverse ds), (reverse ds).
  split; [done |]. split; [| split; [| split; [| split]]].
  - rewrite Hout. unfold dt_strftime. do 3 f_equal.
    rewrite <- fmap_reverse, <- !list_fmap_compose. done.
  - by rewrite length_fmap, length_reverse.
  - apply Forall2_fmap_l, Forall_Forall2_diag, Forall_reverse.
    eapply Forall2_Forall_r; [exact Hparse |].
    apply Forall_forall. intros s _ d Hd. simpl.
    apply strptime_Some in Hd as [Hv Hb]. by apply strptime_dmy_strftime.
  - done.
  - intros i j a b Hij Ha Hb.
    apply reverse_lookup_Some in Ha as [Ha Hi].
    apply reverse_lookup_Some in Hb as [Hb Hj].
    apply (decreasing_pairs ds Hdecr (length ds - S j) (length ds - S i));
      [lia | done | done].
Qed.

Lemma normalize_strictly_increasing_witness :
  ∃ (h' : heap) (df' : loc) (out : list string) (ds' : list date),
    normalize in_ns_bounds (Some 0%nat) {[ 0%nat := weekly_frame ]}
      = (h', Ret df') ∧
    h' !! df' = Some (<["Week of" := ObjCol (Some <$> out)]>
                        (reverse_column <$> weekly_frame)) ∧
    length out = 3%nat ∧
    Forall2 (λ s d, strptime in_ns_bounds regex_dmy s = inr (Some d)) out ds' ∧
    ds' = reverse [Date 2020 1 19; Date 2020 1 12; Date 2020 1 5] ∧
    ∀ i j a b, (i < j)%nat →
               ds' !! i = Some a → ds' !! j = Some b → date_lt a b.
Proof.
  apply (normalize_strictly_increasing in_ns_bounds {[ 0%nat := weekly_frame ]}
    0%nat
           weekly_frame ["01/19/2020"; "01/12/2020"; "01/05/2020"]
           [Date 2020 1 19; Date 2020 1 12; Date 2020 1 5]).
  - reflexivity.
  - reflexivity.
  - repeat constructor.
  - intros [|[|[|i]]] a b Ha Hb; simpl in Ha, Hb;
      try discriminate; injection Ha as <-; injection Hb as <-; reflexivity.
Defined.


(** ** A scenario, evaluated *)

(** On the returns NaN, 1, 3 with window 2 the volatility is a number at
    position 2 only: the float64 nearest to the square root of 2, which
    is also what the two-pass reference gives for 1 and 3. *)
Example returns_one_three_scenario :
  rolling_std 2 sample_returns =
    [NaN; NaN; S754_finite false 6369051672525773 (-52)] ∧
  sample_std [f64_of_Z 1; f64_of_Z 3] =
    S754_finite false 6369051672525773 (-52).
Proof. split; by vm_compute. Qed.

(** * Further properties of the stages *)

(** ** Log returns depend on two prices only *)

(** X1: the return at a position is decided by the prices at that position
    and the one before: two price series that agree there have the same
    return there, whatever they hold elsewhere. *)
Theorem ln_returns_local libm_log (prices1 prices2 : list f64) (i : nat) :
  (1 ≤ i)%nat →
  prices1 !! (i - 1)%nat = prices2 !! (i - 1)%nat →
  prices1 !! i = prices2 !! i →
  ln_returns libm_log prices1 !! i = ln_returns libm_log prices2 !! i.
Proof.
  intros Hi Hprev Hhere. destruct i as [|j]; [lia |].
  replace (S j - 1)%nat with j in Hprev by lia.
  destruct (prices1 !! S j) as [b|] eqn:Hb1.
  - destruct (lookup_lt_is_Some_2 prices1 j) as [a Ha1].
    { apply lookup_lt_Some in Hb1. lia. }
    rewrite (ln_returns_step _ _ _ _ _ Ha1 Hb1).
    symmetry. apply ln_returns_step; congruence.
  - rewrite !lookup_ge_None_2; [done | |].
    + rewrite length_ln_returns. apply lookup_ge_None. congruence.
    + rewrite length_ln_returns. by apply lookup_ge_None.
Qed.

Lemma ln_returns_local_witness :
  ln_returns sample_log [f64_of_Z 2; f64_of_Z 3; f64_of_Z 0] !! 1%nat =
  ln_returns sample_log [f64_of_Z 2; f64_of_Z 3; NaN; f64_of_Z 7] !! 1%nat.
Proof.
  apply (ln_returns_local sample_log [f64_of_Z 2; f64_of_Z 3; f64_of_Z 0]
    [f64_of_Z 2; f64_of_Z 3; NaN; f64_of_Z 7] 1);
    [lia | reflexivity | reflexivity].
Defined.

(** ** Windows longer than the series *)

(** X4: a window longer than the series is no error: the stage returns a
    series of the same length in which every cell is NaN. *)
Theorem calculate_rolling_volatility_long_window py_float (h : heap)
    (df : loc) (f : frame) (returns_column : string)
    (returns : list f64) (window : Z) :
  h !! df = Some f →
  f !! returns_column = Some (FloatCol returns) →
  Z.of_nat (length returns) < window →
  ∃ df' : loc,
    calculate_rolling_volatility py_float df returns_column window h =
      (<[df' := <["rolling_volatility" :=
                    FloatCol (replicate (length returns) NaN)]> f]> h,
       Ret df').
Proof.
  intros Hdf Hcol Hw. exists (fresh (dom h)).
  rewrite (calculate_rolling_volatility_float _ _ _ _ _ _ _ Hdf Hcol) by lia.
  by rewrite rolling_std_long_window by lia.
Qed.

Lemma calculate_rolling_volatility_long_window_witness :
  ∃ df' : loc,
    calculate_rolling_volatility no_float 0%nat "ln_returns" 156
      sample_returns_heap =
      (<[df' := <["rolling_volatility" :=
                    FloatCol (replicate (length sample_returns) NaN)]>
                  sample_returns_frame]> sample_returns_heap,
       Ret df').
Proof.
  apply (calculate_rolling_volatility_long_window no_float
           sample_returns_heap 0%nat sample_returns_frame "ln_returns"
           sample_returns 156); [reflexivity | reflexivity | simpl; lia].
Defined.


(** ** The leading gap of the volatility *)

(** X5: whatever the prices, the first [window] positions of the
    volatility are NaN, one more than the window alone would leave,
    because the return at position 0 is NaN. *)
Theorem returns_then_volatility_leading_gap libm_log py_float (h : heap)
    (df : loc) (f : frame) (price_column : string) (prices : list f64)
    (window : Z) :
  h !! df = Some f →
  f !! price_column = Some (FloatCol prices) →
  0 ≤ window →
  ∃ (h' : heap) (df' : loc) (returns vol : list f64),
    returns_then_volatility libm_log py_float df price_column window h
      = (h', Ret df') ∧
    h' !! df' = Some (<["rolling_volatility" := FloatCol vol]>
                        (<["ln_returns" := FloatCol returns]> f)) ∧
    length vol = length prices ∧
    ∀ (i : nat) (v : f64),
      vol !! i = Some v → Z.of_nat i < window → v = NaN.
Proof.
  intros Hdf Hcol Hw.
  destruct (returns_then_volatility_float libm_log py_float h df f
              price_column prices window Hdf Hcol Hw)
    as (h' & df' & Hrun & Hout & _).
  exists h', df', (ln_returns libm_log prices),
    (rolling_std (Z.to_nat window) (ln_returns libm_log prices)).
  split; [done |]. split; [done |].
  split; [by rewrite length_rolling_std, length_ln_returns |].
  intros i v Hv Hi.
  apply (rolling_std_ln_returns_leading _ _ _ _ _ Hv). lia.
Qed.

Lemma returns_then_volatility_leading_gap_witness :
  ∃ (h' : heap) (df' : loc) (returns vol : list f64),
    returns_then_volatility sample_log no_float 0%nat "price" 2 sample_heap
      = (h', Ret df') ∧
    h' !! df' = Some (<["rolling_volatility" := FloatCol vol]>
                        (<["ln_returns" := FloatCol returns]> sample_frame)) ∧
    length vol = length sample_prices ∧
    ∀ (i : nat) (v : f64),
      vol !! i = Some v → Z.of_nat i < 2 → v = NaN.
Proof.
  apply (returns_then_volatility_leading_gap sample_log no_float sample_heap
           0%nat sample_frame "price" sample_prices 2);
    [reflexivity | reflexivity | lia].
Defined.

(** ** The rewritten dates can be read back *)

Lemma strptime_floats_Ret in_bounds (pos : nat) (cells : list f64)
    (ds : list (option date)) :
  strptime_floats pos cells = Ret ds → Forall (representable in_bounds) ds.
Proof.
  revert pos ds. induction cells as [|x cells IH]; intros pos ds; simpl.
  - intros [= <-]. constructor.
  - destruct (isfinite x); [done |].
    destruct (strptime_floats (S pos) cells) as [ds'|] eqn:Hrest; [| done].
    intros [= <-]. constructor; [by intros d | by eapply IH].
Qed.

Lemma to_datetime_representable in_bounds regex (c : column) (ds : list
    (option date)) :
  to_datetime in_bounds regex c = Ret ds → Forall (representable in_bounds) ds.
Proof.
  destruct c as [xs | cells]; simpl.
  - apply strptime_floats_Ret.
  - intros Hparse. apply strptime_from_Ret in Hparse.
    induction Hparse as [|c d cells ds Hc Hrest IH]; constructor; [| done].
    intros d' ->. destruct c as [s|]; simpl in Hc; [| done].
    by apply strptime_Some in Hc.
Qed.

Lemma strptime_from_dmy_strftime in_bounds (pos : nat) (ds : list
    (option date)) :
  Forall (representable in_bounds) ds →
  strptime_from in_bounds regex_dmy pos ((λ d : option date, strftime_dmy <$>
      d) <$> ds)
  = Ret ds.
Proof.
  intros Hall. revert pos.
  induction Hall as [|o ds Ho Hds IH]; intros pos; [done |].
  rewrite fmap_cons. simpl. destruct o as [d|]; simpl.
  - destruct (Ho d eq_refl) as [Hv Hb].
    rewrite (strptime_dmy_strftime in_bounds d Hv Hb). by rewrite IH.
  - by rewrite IH.
Qed.

(** X8: whenever [convert_date_format] returns, the column it wrote reads
    back under [%d/%m/%Y], the format the plots use, without error and
    as the very timestamps that were parsed from the input. *)
Theorem convert_date_format_readable in_bounds (h h' : heap) (df df' : loc)
    (date_column : string) :
  convert_date_format in_bounds df date_column h = (h', Ret df') →
  ∃ (f : frame) (c : column) (ds : list (option date)),
    h !! df = Some f ∧ f !! date_column = Some c ∧
    to_datetime in_bounds regex_mdy c = Ret ds ∧
    h' !! df' = Some (<[date_column := dt_strftime ds]> f) ∧
    to_datetime in_bounds regex_dmy (dt_strftime ds) = Ret ds.
Proof.
  rewrite convert_date_format_run. unfold stage_outcome.
  destruct (h !! df) as [f|] eqn:Hdf; [| done].
  destruct (f !! date_column) as [c|] eqn:Hcol; [| done].
  destruct (to_datetime in_bounds regex_mdy c) as [ds|] eqn:Hparse; [| done].
  intros [= <- <-]. exists f, c, ds.
  repeat split; try done.
  - apply lookup_insert_eq.
  - simpl. apply strptime_from_dmy_strftime.
    by eapply to_datetime_representable.
Qed.

Lemma convert_date_format_readable_witness :
  ∃ (f : frame) (c : column) (ds : list (option date)),
    ({[ 0%nat := weekly_frame ]} : heap) !! 0%nat = Some f ∧
    f !! "Week of" = Some c ∧
    to_datetime in_ns_bounds regex_mdy c = Ret ds ∧
    (convert_date_format in_ns_bounds 0%nat "Week of"
      {[ 0%nat := weekly_frame ]}).1
      !! 1%nat = Some (<["Week of" := dt_strftime ds]> f) ∧
    to_datetime in_ns_bounds regex_dmy (dt_strftime ds) = Ret ds.
Proof.
  apply (convert_date_format_readable in_ns_bounds {[ 0%nat := weekly_frame ]}
           (convert_date_format in_ns_bounds 0%nat "Week of"
              {[ 0%nat := weekly_frame ]}).1 0%nat 1%nat "Week of").
  reflexivity.
Defined.

(** ** Converting twice *)

Lemma lit_slash_digit (k : Z) (r : string) :
  0 ≤ k ≤ 9 → lit slash (String (char_of_digit k) r) = [].
Proof.
  intros Hk.
  assert (Hcases : k = 0 ∨ k = 1 ∨ k = 2 ∨ k = 3 ∨ k = 4 ∨
                   k = 5 ∨ k = 6 ∨ k = 7 ∨ k = 8 ∨ k = 9) by lia.
  repeat destruct Hcases as [-> | Hcases]; try reflexivity.
  by subst.
Qed.

Lemma alt1_pad2 (p : Z → bool) (n : Z) (r : string) :
  0 ≤ n < 100 →
  alt1 p (pad2 n +:+ r) =
  if p (n / 10) then [(n / 10, String (char_of_digit (n mod 10)) r)] else [].
Proof.
  intros Hn. rewrite pad2_append. unfold alt1.
  by rewrite digit_of_char_of_digit by lia_div.
Qed.

(** A day above 12 is no month: only the first digit matches [%m], and
    no [/] follows it. *)
Lemma match_m_pad2_day (d : Z) (r : string) :
  12 < d ≤ 31 →
  match_m (pad2 d +:+ r) = [(d / 10, String (char_of_digit (d mod 10)) r)].
Proof.
  intros Hd. unfold match_m. rewrite !alt2_pad2, alt1_pad2 by lia.
  destruct (d / 10 =? 1) eqn:H1, (d mod 10 <=? 2) eqn:H2,
    (d / 10 =? 0) eqn:H0, (1 <=? d mod 10) eqn:H11,
    (1 <=? d / 10) eqn:H10; simpl; try reflexivity; bool_to_Z; lia_div.
Qed.

Lemma days_in_month_ge (y m : Z) : 28 ≤ days_in_month y m.
Proof.
  unfold days_in_month.
  repeat match goal with
         | |- context [match ?x with _ => _ end] => destruct x
         | |- context [if ?b then _ else _] => destruct b
         end; lia.
Qed.

Lemma valid_date_swap (d : date) :
  valid_date d = true → day d ≤ 12 → valid_date (swap_day_month d) = true.
Proof.
  intros Hv Hd. pose proof (valid_date_bounds d Hv) as (Hy & Hm & Hdd).
  pose proof (days_in_month_ge (year d) (day d)) as Hdim.
  unfold valid_date, swap_day_month. simpl.
  repeat (apply andb_true_intro; split); bool_to_Z; lia.
Qed.

Lemma list_bind_singleton {A B : Type} (f : A → list B) (x : A) :
  [x] ≫= f = f x.
Proof. csimpl. apply app_nil_r. Qed.

Lemma regex_mdy_strftime_dmy (d : date) :
  valid_date d = true →
  regex_mdy (strftime_dmy d) =
  if day d <=? 12 then Some (swap_day_month d, "") else None.
Proof.
  intros Hv. apply valid_date_bounds in Hv as (Hy & Hm & Hd).
  destruct d as [y m dd]. unfold swap_day_month. simpl in *.
  unfold regex_mdy, strftime_dmy. simpl year; simpl month; simpl day.
  destruct (dd <=? 12) eqn:Hdd; bool_to_Z.
  - destruct (match_m_pad2 dd ("/" +:+ pad2 m +:+ "/" +:+ pad4 y))
      as [tl1 ->]; [lia |].
    csimpl.
    destruct (match_d_pad2 m ("/" +:+ pad4 y +:+ "")) as [tl2 Hm2]; [lia |].
    change ("" +:+ pad2 m +:+ "/" +:+ pad4 y)
      with (pad2 m +:+ "/" +:+ pad4 y +:+ "").
    rewrite Hm2. csimpl.
    change ("" +:+ pad4 y +:+ "") with (pad4 y +:+ "").
    rewrite match_Y_pad4 by lia.
    reflexivity.
  - rewrite match_m_pad2_day by lia.
    rewrite list_bind_singleton. cbv beta iota.
    by rewrite lit_slash_digit by lia_div.
Qed.

(** Read as [%m/%d/%Y], a rewritten date is the date with day and month
    exchanged when its day is at most 12, and matches nothing
    otherwise. *)
Lemma strptime_mdy_strftime_dmy in_bounds (d : date) :
  valid_date d = true →
  strptime in_bounds regex_mdy (strftime_dmy d) =
  if day d <=? 12
  then if in_bounds (swap_day_month d)
       then inr (Some (swap_day_month d)) else inl OutOfBounds
  else inl NoMatch.
Proof.
  intros Hv. unfold strptime.
  rewrite bool_decide_eq_false_2 by apply strftime_dmy_not_missing.
  rewrite (regex_mdy_strftime_dmy d Hv).
  destruct (day d <=? 12) eqn:Hd; [| done]. bool_to_Z.
  rewrite bool_decide_eq_false_2 by (intros H; by apply H).
  rewrite (valid_date_swap d Hv Hd). simpl.
  by destruct (in_bounds (swap_day_month d)).
Qed.

Lemma to_datetime_ObjCol_lookup in_bounds regex (cells : list (option string))
    (ds : list (option date)) (k : nat) (o : option date) :
  strptime_from in_bounds regex 0 cells = Ret ds → ds !! k = Some o →
  ∃ c, cells !! k = Some c ∧ parse_cell in_bounds regex c = inr o.
Proof.
  intros Hparse Hk. apply strptime_from_Ret in Hparse.
  destruct (Forall2_lookup_r _ _ _ _ _ Hparse Hk) as (c & Hc & Hpc).
  by exists c.
Qed.

(** X9: [convert_date_format] is not idempotent: applied to the frame it
    returned it raises, and returns no frame, as soon as one of the
    dates has a day above 12. *)
Theorem convert_date_format_twice_raises in_bounds (h : heap) (df : loc)
    (f : frame)
    (date_column : string) (c : column) (ds : list (option date))
    (k : nat) (d : date) :
  h !! df = Some f →
  f !! date_column = Some c →
  to_datetime in_bounds regex_mdy c = Ret ds →
  ds !! k = Some (Some d) → 12 < day d →
  ∃ (h1 h2 : heap) (df1 : loc) (e : exn),
    convert_date_format in_bounds df date_column h = (h1, Ret df1) ∧
    convert_date_format in_bounds df1 date_column h1 = (h2, Raise e) ∧
    h2 !! df = Some f.
Proof.
  intros Hdf Hcol Hparse Hk Hday.
  set (f1 := <[date_column := dt_strftime ds]> f).
  set (h1 := <[fresh (dom h) := f1]> h).
  assert (Hrun1 : convert_date_format in_bounds df date_column h
                  = (h1, Ret (fresh (dom h)))).
  { rewrite convert_date_format_run. unfold stage_outcome.
    by rewrite Hdf, Hcol, Hparse. }
  assert (Hne : ∀ g : heap, g !! df = Some f → fresh (dom g) ≠ df).
  { intros g Hg Heq. pose proof (fresh_not_allocated g) as Hfresh.
    rewrite Heq in Hfresh. congruence. }
  assert (Hdf1 : h1 !! df = Some f).
  { unfold h1. rewrite lookup_insert_ne; [done | by apply Hne]. }
  pose proof (to_datetime_representable in_bounds _ _ _ Hparse) as Hrep.
  rewrite Forall_lookup in Hrep.
  destruct (Hrep _ _ Hk d eq_refl) as [Hv _].
  exists h1, (<[fresh (dom h1) := f1]> h1), (fresh (dom h)).
  destruct (strptime_from in_bounds regex_mdy 0
              ((λ o : option date, strftime_dmy <$> o) <$> ds))
    as [ds2 | e] eqn:Hsecond.
  - exfalso. apply strptime_from_Ret in Hsecond.
    assert (Hcell : ((λ o : option date, strftime_dmy <$> o) <$> ds) !! k
                    = Some (Some (strftime_dmy d))).
    { by rewrite list_lookup_fmap, Hk. }
    destruct (Forall2_lookup_l _ _ _ _ _ Hsecond Hcell) as (o & _ & Ho).
    simpl in Ho. rewrite (strptime_mdy_strftime_dmy in_bounds d Hv) in Ho.
    assert (Hgt : (day d <=? 12) = false) by (bool_to_Z; lia).
    rewrite Hgt in Ho. done.
  - exists e. split; [done |]. split.
    + rewrite convert_date_format_run. unfold stage_outcome.
      unfold h1 at 1. rewrite lookup_insert_eq.
      unfold f1 at 1. rewrite lookup_insert_eq. simpl.
      by rewrite Hsecond.
    + rewrite lookup_insert_ne; [done | by apply Hne].
Qed.

Lemma convert_date_format_twice_raises_witness :
  ∃ (h1 h2 : heap) (df1 : loc) (e : exn),
    convert_date_format in_ns_bounds 0%nat "Week of" {[ 0%nat := weekly_frame ]}
      = (h1, Ret df1) ∧
    convert_date_format in_ns_bounds df1 "Week of" h1 = (h2, Raise e) ∧
    h2 !! 0%nat = Some weekly_frame.
Proof.
  apply (convert_date_format_twice_raises in_ns_bounds {[ 0%nat :=
      weekly_frame ]}
    0%nat
           weekly_frame "Week of"
           (ObjCol (Some <$> ["01/19/2020"; "01/12/2020"; "01/05/2020"]))
           [Some (Date 2020 1 19); Some (Date 2020 1 12);
            Some (Date 2020 1 5)] 0 (Date 2020 1 19));
    [reflexivity | reflexivity | reflexivity | reflexivity | simpl; lia].
Defined.

Lemma strptime_from_mdy_strftime in_bounds (pos : nat) (ds : list
    (option date)) :
  Forall (representable in_bounds) ds → Forall (swappable in_bounds) ds →
  strptime_from in_bounds regex_mdy pos
    ((λ o : option date, strftime_dmy <$> o) <$> ds)
  = Ret ((λ o : option date, swap_day_month <$> o) <$> ds).
Proof.
  intros Hrep. revert pos.
  induction Hrep as [|o ds Ho Hds IH]; intros pos Hswap; [done |].
  inversion Hswap as [|? ? Hso Hsds]; subst.
  rewrite !fmap_cons. simpl. destruct o as [d|]; simpl.
  - destruct (Ho d eq_refl) as [Hv _].
    destruct (Hso d eq_refl) as [Hd Hb].
    rewrite (strptime_mdy_strftime_dmy in_bounds d Hv), Hb.
    assert (Hle : (day d <=? 12) = true) by (bool_to_Z; lia).
    rewrite Hle. by rewrite IH.
  - by rewrite IH.
Qed.

(** X10: when every date has a day of at most 12, the second conversion
    raises nothing: it silently exchanges day and month, so the text it
    writes is the month, the day and the year of the original date. *)
Theorem convert_date_format_twice_swaps in_bounds (h : heap) (df : loc)
    (f : frame)
    (date_column : string) (c : column) (ds : list (option date)) :
  h !! df = Some f →
  f !! date_column = Some c →
  to_datetime in_bounds regex_mdy c = Ret ds →
  Forall (swappable in_bounds) ds →
  ∃ (h1 h2 : heap) (df1 df2 : loc),
    convert_date_format in_bounds df date_column h = (h1, Ret df1) ∧
    convert_date_format in_bounds df1 date_column h1 = (h2, Ret df2) ∧
    h2 !! df2 =
      Some (<[date_column :=
                dt_strftime ((λ o : option date, swap_day_month <$> o)
                               <$> ds)]> f).
Proof.
  intros Hdf Hcol Hparse Hswap.
  set (f1 := <[date_column := dt_strftime ds]> f).
  set (h1 := <[fresh (dom h) := f1]> h).
  exists h1, (<[fresh (dom h1) :=
                 <[date_column :=
                     dt_strftime ((λ o : option date, swap_day_month <$> o)
                                    <$> ds)]> f1]> h1),
    (fresh (dom h)), (fresh (dom h1)).
  split; [| split].
  - rewrite convert_date_format_run. unfold stage_outcome.
    by rewrite Hdf, Hcol, Hparse.
  - rewrite convert_date_format_run. unfold stage_outcome.
    unfold h1 at 1. rewrite lookup_insert_eq.
    unfold f1 at 1. rewrite lookup_insert_eq. simpl.
    rewrite strptime_from_mdy_strftime;
      [done | by eapply to_datetime_representable | done].
  - rewrite lookup_insert_eq. unfold f1. by rewrite insert_insert_eq.
Qed.

Lemma convert_date_format_twice_swaps_witness :
  ∃ (h1 h2 : heap) (df1 df2 : loc),
    convert_date_format in_ns_bounds 0%nat "Week of"
      {[ 0%nat := early_days_frame ]}
      = (h1, Ret df1) ∧
    convert_date_format in_ns_bounds df1 "Week of" h1 = (h2, Ret df2) ∧
    h2 !! df2 =
      Some (<["Week of" :=
                dt_strftime ((λ o : option date, swap_day_month <$> o) <$>
                               [Some (Date 2020 3 12); Some (Date 2020 3 5);
                                None])]> early_days_frame).
Proof.
  apply (convert_date_format_twice_swaps in_ns_bounds
    {[ 0%nat := early_days_frame ]}
           0%nat early_days_frame "Week of"
           (ObjCol [Some "03/12/2020"; Some "03/05/2020"; None])
           [Some (Date 2020 3 12); Some (Date 2020 3 5); None]);
    [reflexivity | reflexivity | reflexivity |].
  apply Forall_cons_2;
    [intros d [= <-]; split; [simpl; lia | reflexivity] |].
  apply Forall_cons_2;
    [intros d [= <-]; split; [simpl; lia | reflexivity] |].
  apply Forall_cons_2; [intros d [=] | apply Forall_nil_2].
Defined.

(** ** Input that is already chronological *)

Lemma increasing_pairs (ds : list date) :
  (∀ i a b, ds !! i = Some a → ds !! S i = Some b → date_lt a b) →
  ∀ i j a b, (i < j)%nat → ds !! i = Some a → ds !! j = Some b → date_lt a b.
Proof.
  intros Hstep i j a b Hij Ha. revert b.
  induction Hij as [|j Hij IH]; intros b Hb.
  - by apply (Hstep i).
  - destruct (lookup_lt_is_Some_2 ds j) as [c Hc].
    { apply lookup_lt_Some in Hb. lia. }
    apply date_lt_trans with c; [by apply IH | by apply (Hstep j)].
Qed.

(** X11: the reversal is unconditional: raw dates that are already strictly
    increasing raise nothing and come out strictly decreasing. *)
Theorem normalize_reverses_chronological in_bounds (h : heap) (df : loc)
    (f : frame)
    (raw : list string) (ds : list date) :
  h !! df = Some f →
  f !! "Week of" = Some (ObjCol (Some <$> raw)) →
  Forall2 (λ s d, strptime in_bounds regex_mdy s = inr (Some d)) raw ds →
  (∀ i a b, ds !! i = Some a → ds !! S i = Some b → date_lt a b) →
  ∃ (h' : heap) (df' : loc) (out : list string) (ds' : list date),
    normalize in_bounds (Some df) h = (h', Ret df') ∧
    h' !! df' = Some (<["Week of" := ObjCol (Some <$> out)]>
                        (reverse_column <$> f)) ∧
    Forall2 (λ s d, strptime in_bounds regex_dmy s = inr (Some d)) out ds' ∧
    ds' = reverse ds ∧
    ∀ i j a b, (i < j)%nat →
               ds' !! i = Some a → ds' !! j = Some b → date_lt b a.
Proof.
  intros Hdf Hcol Hparse Hincr.
  assert (Hcells : Forall2 (λ c d, parse_cell in_bounds regex_mdy c = inr d)
                     (Some <$> raw) (Some <$> ds)).
  { by apply Forall2_fmap_2. }
  destruct (normalize_parsed in_bounds h df f _ _ Hdf Hcol Hcells)
    as (h' & df' & Hrun & Hout & _).
  exists h', df', (strftime_dmy <$> reverse ds), (reverse ds).
  split; [done |]. split; [| split; [| split]].
  - rewrite Hout. unfold dt_strftime. do 3 f_equal.
    rewrite <- fmap_reverse, <- !list_fmap_compose. done.
  - apply Forall2_fmap_l, Forall_Forall2_diag, Forall_reverse.
    eapply Forall2_Forall_r; [exact Hparse |].
    apply Forall_forall. intros s _ d Hd. simpl.
    apply strptime_Some in Hd as [Hv Hb]. by apply strptime_dmy_strftime.
  - done.
  - intros i j a b Hij Ha Hb.
    apply reverse_lookup_Some in Ha as [Ha Hi].
    apply reverse_lookup_Some in Hb as [Hb Hj].
    apply (increasing_pairs ds Hincr (length ds - S j) (length ds - S i));
      [lia | done | done].
Qed.

Lemma normalize_reverses_chronological_witness :
  ∃ (h' : heap) (df' : loc) (out : list string) (ds' : list date),
    normalize in_ns_bounds (Some 0%nat) {[ 0%nat := chronological_frame ]}
      = (h', Ret df') ∧
    h' !! df' = Some (<["Week of" := ObjCol (Some <$> out)]>
                        (reverse_column <$> chronological_frame)) ∧
    Forall2 (λ s d, strptime in_ns_bounds regex_dmy s = inr (Some d)) out ds' ∧
    ds' = reverse [Date 2020 1 5; Date 2020 1 12; Date 2020 1 19] ∧
    ∀ i j a b, (i < j)%nat →
               ds' !! i = Some a → ds' !! j = Some b → date_lt b a.
Proof.
  apply (normalize_reverses_chronological in_ns_bounds
    {[ 0%nat := chronological_frame ]}
           0%nat chronological_frame
           ["01/05/2020"; "01/12/2020"; "01/19/2020"]
           [Date 2020 1 5; Date 2020 1 12; Date 2020 1 19]).
  - reflexivity.
  - reflexivity.
  - repeat constructor.
  - intros [|[|[|i]]] a b Ha Hb; simpl in Ha, Hb;
      try discriminate; injection Ha as <-; injection Hb as <-; reflexivity.
Defined.

(** ** Records stay together *)

(** X12: normalisation moves whole records: the record at raw position [i]
    is found at position [n - 1 - i] of the output with its date
    rewritten and its value in any float column unchanged. *)
Theorem normalize_keeps_rows_together in_bounds (h : heap) (df : loc)
    (f : frame)
    (cells : list (option string)) (ds : list (option date))
    (label : string) (xs : list f64) :
  h !! df = Some f →
  f !! "Week of" = Some (ObjCol cells) →
  Forall2 (λ c d, parse_cell in_bounds regex_mdy c = inr d) cells ds →
  label ≠ "Week of" →
  f !! label = Some (FloatCol xs) →
  length xs = length cells →
  ∃ (h' : heap) (df' : loc) (f' : frame)
    (out : list (option string)) (ys : list f64),
    normalize in_bounds (Some df) h = (h', Ret df') ∧
    h' !! df' = Some f' ∧
    f' !! "Week of" = Some (ObjCol out) ∧
    f' !! label = Some (FloatCol ys) ∧
    ∀ (i : nat) (d : option date) (x : f64),
      ds !! i = Some d → xs !! i = Some x →
      out !! (length cells - 1 - i)%nat = Some (strftime_dmy <$> d) ∧
      ys !! (length cells - 1 - i)%nat = Some x.
Proof.
  intros Hdf Hcol Hall Hlabel Hxs Hlen.
  destruct (normalize_parsed in_bounds h df f cells ds Hdf Hcol Hall)
    as (h' & df' & Hrun & Hout & _).
  pose proof (Forall2_length _ _ _ Hall) as Hlends.
  exists h', df', (<["Week of" := dt_strftime (reverse ds)]>
                     (reverse_column <$> f)),
    ((λ d : option date, strftime_dmy <$> d) <$> reverse ds), (reverse xs).
  split; [done |]. split; [done |]. split; [apply lookup_insert_eq |].
  split.
  - rewrite lookup_insert_ne by done.
    by rewrite lookup_reverse_column, Hxs.
  - intros i d x Hd Hx.
    pose proof (lookup_lt_Some _ _ _ Hd) as Hi. split.
    + rewrite list_lookup_fmap, reverse_lookup by lia.
      replace (length ds - S (length cells - 1 - i))%nat with i by lia.
      by rewrite Hd.
    + rewrite reverse_lookup by lia.
      by replace (length xs - S (length cells - 1 - i))%nat with i by lia.
Qed.

Lemma normalize_keeps_rows_together_witness :
  ∃ (h' : heap) (df' : loc) (f' : frame)
    (out : list (option string)) (ys : list f64),
    normalize in_ns_bounds (Some 0%nat) {[ 0%nat := weekly_frame ]}
      = (h', Ret df') ∧
    h' !! df' = Some f' ∧
    f' !! "Week of" = Some (ObjCol out) ∧
    f' !! price_label = Some (FloatCol ys) ∧
    ∀ (i : nat) (d : option date) (x : f64),
      [Some (Date 2020 1 19); Some (Date 2020 1 12); Some (Date 2020 1 5)]
        !! i = Some d →
      [f64_of_Z 2; f64_of_decimal 21 1; f64_of_Z 2] !! i = Some x →
      out !! (3 - 1 - i)%nat = Some (strftime_dmy <$> d) ∧
      ys !! (3 - 1 - i)%nat = Some x.
Proof.
  apply (normalize_keeps_rows_together in_ns_bounds {[ 0%nat := weekly_frame ]}
    0%nat
           weekly_frame
           [Some "01/19/2020"; Some "01/12/2020"; Some "01/05/2020"]
           [Some (Date 2020 1 19); Some (Date 2020 1 12);
            Some (Date 2020 1 5)]
           price_label [f64_of_Z 2; f64_of_decimal 21 1; f64_of_Z 2]);
    [reflexivity | reflexivity | repeat constructor | done
    | reflexivity | reflexivity].
Defined.

(** ** A missing column *)

(** X13: each stage reports a column that the frame does not have with a
    [KeyError] naming it and returns no frame; the rolling stage does so
    before it looks at the window.  The argument is as before. *)
Theorem stages_missing_column libm_log in_bounds py_float (h : heap) (df : loc)
    (f : frame)
    (label : string) (window : Z) :
  h !! df = Some f →
  f !! label = None →
  ∃ h' : heap,
    h' !! df = Some f ∧
    convert_date_format in_bounds df label h = (h', Raise (KeyError label)) ∧
    calculate_ln_returns libm_log df label h = (h', Raise (KeyError label)) ∧
    calculate_rolling_volatility py_float df label window h
      = (h', Raise (KeyError label)).
Proof.
  intros Hdf Hcol. exists (<[fresh (dom h) := f]> h).
  rewrite convert_date_format_run, calculate_ln_returns_run,
    calculate_rolling_volatility_run.
  unfold stage_outcome. rewrite Hdf, Hcol. repeat split.
  rewrite lookup_insert_ne; [done |].
  intros Heq. pose proof (fresh_not_allocated h) as Hfresh.
  rewrite Heq in Hfresh. congruence.
Qed.

Lemma stages_missing_column_witness :
  ∃ h' : heap,
    h' !! 0%nat = Some sample_frame ∧
    convert_date_format in_ns_bounds 0%nat "Week of" sample_heap
      = (h', Raise (KeyError "Week of")) ∧
    calculate_ln_returns sample_log 0%nat "Week of" sample_heap
      = (h', Raise (KeyError "Week of")) ∧
    calculate_rolling_volatility no_float 0%nat "Week of" (-1) sample_heap
      = (h', Raise (KeyError "Week of")).
Proof.
  apply (stages_missing_column sample_log in_ns_bounds no_float sample_heap
      0%nat
    sample_frame
           "Week of" (-1)); reflexivity.
Defined.

(** ** The whole program *)

Lemma run_Ret {A B : Type} (m : M A) (k : A → IO B) (h h' : heap)
    (out : list event) (a : A) :
  m h = (h', Ret a) → (run m ≫= k) (h, out) = k a (h', out).
Proof.
  intros Hm. unfold mbind, IO_bind, run. simpl. by rewrite Hm.
Qed.

Lemma run_Raise {A B : Type} (m : M A) (k : A → IO B) (h h' : heap)
    (out : list event) (e : exn) :
  m h = (h', Raise e) → (run m ≫= k) (h, out) = ((h', out), Raise e).
Proof.
  intros Hm. unfold mbind, IO_bind, run. simpl. by rewrite Hm.
Qed.

Lemma emit_bind {B : Type} (e : event) (k : unit → IO B) (h : heap)
    (out : list event) :
  (emit e ≫= k) (h, out) = k () (h, out ++ [e]).
Proof. reflexivity. Qed.

Lemma io_lift_Ret {A B : Type} (a : A) (k : A → IO B)
    (w : heap * list event) :
  (io_lift (Ret a) ≫= k) w = k a w.
Proof. reflexivity. Qed.

Lemma getitem_Some (h : heap) (df : loc) (f : frame) (label : string)
    (c : column) :
  h !! df = Some f → f !! label = Some c → getitem df label h = (h, Ret c).
Proof.
  intros Hdf Hcol. unfold getitem, mbind, M_bind, deref.
  by rewrite Hdf, Hcol.
Qed.

(** What a plot function hands to the axes for a frame whose dates were
    written by [convert_date_format]. *)
Lemma plot_price_over_time_run in_bounds (h : heap) (out : list event)
    (df : loc)
    (f : frame) (date_column price_column : string)
    (ds : list (option date)) (y : column) :
  h !! df = Some f →
  f !! date_column = Some (dt_strftime ds) →
  Forall (representable in_bounds) ds →
  f !! price_column = Some y →
  plot_price_over_time in_bounds df date_column price_column (h, out) =
  ((h, out ++ [Plot price_title "Spot Price" ds y]), Ret ()).
Proof.
  intros Hdf Hdates Hrep Hy. unfold plot_price_over_time.
  rewrite (run_Ret _ _ h h out _ (getitem_Some _ _ _ _ _ Hdf Hdates)).
  simpl to_datetime. rewrite strptime_from_dmy_strftime by done.
  rewrite io_lift_Ret.
  rewrite (run_Ret _ _ h h out _ (getitem_Some _ _ _ _ _ Hdf Hy)).
  rewrite (run_Ret _ _ h h out _ (getitem_Some _ _ _ _ _ Hdf Hy)).
  reflexivity.
Qed.

Lemma plot_volatility_over_time_run in_bounds (h : heap) (out : list event)
    (df : loc)
    (f : frame) (date_column volatility_column : string)
    (window : option Z) (ds : list (option date)) (y : column) :
  h !! df = Some f →
  f !! date_column = Some (dt_strftime ds) →
  Forall (representable in_bounds) ds →
  f !! volatility_column = Some y →
  plot_volatility_over_time in_bounds df date_column volatility_column window
    (h, out) =
  ((h, out ++ [Plot (volatility_title window) "Rolling Volatility" ds y]),
   Ret ()).
Proof.
  intros Hdf Hdates Hrep Hy. unfold plot_volatility_over_time.
  rewrite (run_Ret _ _ h h out _ (getitem_Some _ _ _ _ _ Hdf Hdates)).
  simpl to_datetime. rewrite strptime_from_dmy_strftime by done.
  rewrite io_lift_Ret.
  rewrite (run_Ret _ _ h h out _ (getitem_Some _ _ _ _ _ Hdf Hy)).
  rewrite (run_Ret _ _ h h out _ (getitem_Some _ _ _ _ _ Hdf Hy)).
  reflexivity.
Qed.

(** X14: when the file cannot be read, [read_csv_file] prints one line and
    returns [None], and [main] then raises [AttributeError] at the
    reversal: the test [df is not None] of line 151 is not reached, and
    nothing is plotted. *)
Theorem main_unreadable_file libm_log in_bounds py_float
    (pd_read_csv : string → csv_outcome)
    (h : heap) (out : list event) :
  (∀ f, pd_read_csv csv_file_path ≠ CsvFrame f) →
  ∃ line : string,
    main libm_log in_bounds py_float pd_read_csv (h, out) =
    ((h, out ++ [Print line]), Raise AttributeError).
Proof.
  intros Hfail. unfold main, read_csv_file.
  destruct (pd_read_csv csv_file_path) as [f | | msg] eqn:Hread.
  - by destruct (Hfail f).
  - by eexists.
  - by eexists.
Qed.

Lemma main_unreadable_file_witness :
  ∃ line : string,
    main sample_log in_ns_bounds no_float (λ _, CsvNotFound) (∅, []) =
    ((∅, [] ++ [Print line]), Raise AttributeError).
Proof.
  apply (main_unreadable_file sample_log in_ns_bounds no_float
      (λ _, CsvNotFound)
    ∅ []).
  intros f. discriminate.
Defined.

Lemma IO_bind_Ret {A B : Type} (m : IO A) (k : A → IO B)
    (w w' : heap * list event) (a : A) :
  m w = (w', Ret a) → (m ≫= k) w = k a w'.
Proof. intros Hm. unfold mbind, IO_bind. by rewrite Hm. Qed.

Lemma run_eq {A : Type} (m : M A) (h h' : heap) (out : list event)
    (r : result A) :
  m h = (h', r) → run m (h, out) = ((h', out), r).
Proof. intros Hm. unfold run. simpl. by rewrite Hm. Qed.

Lemma read_csv_file_frame py_read (path : string) (f : frame) (h : heap)
    (out : list event) :
  py_read path = CsvFrame f →
  read_csv_file py_read path (h, out) =
  ((<[fresh (dom h) := f]> h, out), Ret (Some (fresh (dom h)))).
Proof. intros Hread. unfold read_csv_file. by rewrite Hread. Qed.

Lemma parse_cells_representable in_bounds (cells : list (option string))
    (ds : list (option date)) :
  Forall2 (λ c d, parse_cell in_bounds regex_mdy c = inr d) cells ds →
  Forall (representable in_bounds) ds.
Proof.
  intros Hall.
  apply (to_datetime_representable in_bounds regex_mdy (ObjCol cells)).
  simpl. by apply strptime_from_Ret.
Qed.

(** X15: when the file holds a frame whose dates all parse and whose price
    column is numeric, [main] runs to its end.  It prints the shape and
    the head of the normalised frame and hands two lines to the axes:
    the prices in reverse raw order, and the rolling volatility (window
    156) of their log returns, both against the raw dates in reverse
    order. *)
Theorem main_plots libm_log in_bounds py_float (pd_read_csv : string →
    csv_outcome)
    (h : heap) (out : list event) (f : frame)
    (cells : list (option string)) (ds : list (option date))
    (prices : list f64) :
  pd_read_csv csv_file_path = CsvFrame f →
  f !! "Week of" = Some (ObjCol cells) →
  Forall2 (λ c d, parse_cell in_bounds regex_mdy c = inr d) cells ds →
  f !! price_label = Some (FloatCol prices) →
  ∃ (h' : heap) (f' : frame),
    f' = <["Week of" := dt_strftime (reverse ds)]> (reverse_column <$> f) ∧
    main libm_log in_bounds py_float pd_read_csv (h, out) =
    ((h', out ++
          [Print ("Successfully loaded data with shape: " +:+ shape_text f');
           PrintHead (df_head f');
           Plot price_title "Spot Price" (reverse ds)
             (FloatCol (reverse prices));
           Plot (volatility_title (Some 156)) "Rolling Volatility"
             (reverse ds)
             (FloatCol (rolling_std 156 (ln_returns libm_log
               (reverse prices))))]),
     Ret ()).
Proof.
  intros Hread Hcol Hall Hprice.
  set (h0 := <[fresh (dom h) := f]> h).
  destruct (normalize_parsed in_bounds h0 (fresh (dom h)) f cells ds)
    as (h1 & df1 & Hnorm & Hdf1 & _);
    [apply lookup_insert_eq | done | done |].
  set (f' := <["Week of" := dt_strftime (reverse ds)]>
               (reverse_column <$> f)) in *.
  assert (Hrep : Forall (representable in_bounds) (reverse ds)).
  { apply Forall_reverse. by eapply parse_cells_representable. }
  assert (Hdates : f' !! "Week of" = Some (dt_strftime (reverse ds))).
  { apply lookup_insert_eq. }
  assert (Hprices : f' !! price_label = Some (FloatCol (reverse prices))).
  { unfold f'. rewrite lookup_insert_ne by done.
    by rewrite lookup_reverse_column, Hprice. }
  set (f2 := <["ln_returns" := FloatCol (ln_returns libm_log
      (reverse prices))]> f').
  set (h2 := <[fresh (dom h1) := f2]> h1).
  set (vol := rolling_std 156 (ln_returns libm_log (reverse prices))).
  set (f3 := <["rolling_volatility" := FloatCol vol]> f2).
  set (h3 := <[fresh (dom h2) := f3]> h2).
  exists h3, f'. split; [done |].
  unfold main.
  rewrite (IO_bind_Ret _ _ _ _ _
             (read_csv_file_frame pd_read_csv _ f h out Hread)).
  fold h0.
  rewrite (IO_bind_Ret _ _ _ _ _ (run_eq _ _ _ out _ Hnorm)).
  assert (Hderef : deref df1 h1 = (h1, Ret f')).
  { unfold deref. by rewrite Hdf1. }
  rewrite (IO_bind_Ret _ _ _ _ _ (run_eq _ _ _ out _ Hderef)).
  rewrite !emit_bind.
  rewrite (IO_bind_Ret _ _ _ _ _
             (plot_price_over_time_run in_bounds h1 _ df1 f' "Week of"
                 price_label
                (reverse ds) (FloatCol (reverse prices))
                Hdf1 Hdates Hrep Hprices)).
  rewrite (IO_bind_Ret _ _ _ _ _
             (run_eq _ _ _ _ _
                (calculate_ln_returns_float libm_log h1 df1 f' price_label
                   (reverse prices) Hdf1 Hprices))).
  fold f2. fold h2.
  assert (Hdf2 : h2 !! fresh (dom h1) = Some f2) by apply lookup_insert_eq.
  assert (Hret : f2 !! "ln_returns"
                 = Some (FloatCol (ln_returns libm_log (reverse prices))))
    by apply lookup_insert_eq.
  rewrite (IO_bind_Ret _ _ _ _ _
             (run_eq _ _ _ _ _
                (calculate_rolling_volatility_float py_float h2
                   (fresh (dom h1)) f2 "ln_returns"
                   (ln_returns libm_log (reverse prices)) volatility_window
                   Hdf2 Hret ltac:(unfold volatility_window; lia)))).
  change (Z.to_nat volatility_window) with 156%nat.
  fold vol. fold f3. fold h3.
  rewrite (plot_volatility_over_time_run in_bounds h3 _ (fresh (dom h2)) f3
             "Week of" "rolling_volatility" (Some volatility_window)
             (reverse ds) (FloatCol vol)).
  - rewrite <- !app_assoc. reflexivity.
  - apply lookup_insert_eq.
  - unfold f3, f2. by rewrite !lookup_insert_ne by done.
  - done.
  - apply lookup_insert_eq.
Qed.

Lemma main_plots_witness :
  ∃ (h' : heap) (f' : frame),
    f' = <["Week of" :=
             dt_strftime (reverse [Some (Date 2020 1 19);
                                   Some (Date 2020 1 12);
                                   Some (Date 2020 1 5)])]>
           (reverse_column <$> weekly_frame) ∧
    main sample_log in_ns_bounds no_float (λ _, CsvFrame weekly_frame) (∅, []) =
    ((h', [] ++
          [Print ("Successfully loaded data with shape: " +:+ shape_text f');
           PrintHead (df_head f');
           Plot price_title "Spot Price"
             (reverse [Some (Date 2020 1 19); Some (Date 2020 1 12);
                       Some (Date 2020 1 5)])
             (FloatCol (reverse [f64_of_Z 2; f64_of_decimal 21 1; f64_of_Z 2]));
           Plot (volatility_title (Some 156)) "Rolling Volatility"
             (reverse [Some (Date 2020 1 19); Some (Date 2020 1 12);
                       Some (Date 2020 1 5)])
             (FloatCol (rolling_std 156
                          (ln_returns sample_log
                             (reverse [f64_of_Z 2; f64_of_decimal 21 1;
                                 f64_of_Z 2]))))]),
     Ret ()).
Proof.
  apply (main_plots sample_log in_ns_bounds no_float
      (λ _, CsvFrame weekly_frame) ∅ [] weekly_frame
           [Some "01/19/2020"; Some "01/12/2020"; Some "01/05/2020"]
           [Some (Date 2020 1 19); Some (Date 2020 1 12);
            Some (Date 2020 1 5)]
           [f64_of_Z 2; f64_of_decimal 21 1; f64_of_Z 2]);
    [reflexivity | reflexivity | repeat constructor | reflexivity].
Defined.

(** ** Missing dates *)

Lemma strptime_missing in_bounds regex (s : string) :
  strptime in_bounds regex s = inr None ↔ s = "" ∨ s ∈ nat_strings.
Proof.
  unfold strptime. case_bool_decide as Hs; [done |].
  split; [| done].
  destruct (regex s) as [[d rest]|]; [| done].
  case_bool_decide; [done |].
  destruct (valid_date d); simpl; [| done].
  by destruct (in_bounds d).
Qed.

(** X16: [convert_date_format] keeps the number of rows, and a date is
    missing in its output exactly where the input cell is missing, is
    the empty text or is one of the spellings of NaT and nan: such text
    raises nothing. *)
Theorem convert_date_format_missing_dates in_bounds (h h' : heap) (df df' : loc)
    (f : frame) (date_column : string) (cells : list (option string)) :
  h !! df = Some f →
  f !! date_column = Some (ObjCol cells) →
  convert_date_format in_bounds df date_column h = (h', Ret df') →
  ∃ out : list (option string),
    h' !! df' = Some (<[date_column := ObjCol out]> f) ∧
    length out = length cells ∧
    ∀ i : nat,
      out !! i = Some None ↔
      cells !! i = Some None ∨
      ∃ s, cells !! i = Some (Some s) ∧ (s = "" ∨ s ∈ nat_strings).
Proof.
  intros Hdf Hcol. rewrite convert_date_format_run. unfold stage_outcome.
  rewrite Hdf, Hcol. simpl.
  destruct (strptime_from in_bounds regex_mdy 0 cells) as [ds|] eqn:Hparse; [|
      done].
  intros [= <- <-]. apply strptime_from_Ret in Hparse.
  pose proof (Forall2_length _ _ _ Hparse) as Hlen.
  exists ((λ d : option date, strftime_dmy <$> d) <$> ds).
  split; [apply lookup_insert_eq |].
  split; [by rewrite length_fmap |].
  intros i. rewrite list_lookup_fmap. split.
  - destruct (ds !! i) as [o|] eqn:Ho; [| done].
    destruct o as [d|]; [done |]. intros _.
    destruct (Forall2_lookup_r _ _ _ _ _ Hparse Ho) as (c & Hc & Hpc).
    destruct c as [s|]; [right | by left].
    exists s. split; [done |]. by apply (strptime_missing in_bounds regex_mdy).
  - intros Hcell.
    assert (Hc : ∃ c, cells !! i = Some c ∧ parse_cell in_bounds regex_mdy c =
        inr None).
    { destruct Hcell as [Hnone | (s & Hs & Hmissing)].
      - by exists None.
      - exists (Some s). split; [done |].
        by apply (strptime_missing in_bounds regex_mdy). }
    destruct Hc as (c & Hc & Hpc).
    destruct (Forall2_lookup_l _ _ _ _ _ Hparse Hc) as (o & Ho & Hpo).
    rewrite Ho. simpl. rewrite Hpc in Hpo. by injection Hpo as <-.
Qed.

Lemma convert_date_format_missing_dates_witness :
  ∃ out : list (option string),
    (convert_date_format in_ns_bounds 0%nat "Week of"
       {[ 0%nat := early_days_frame ]}).1 !! 1%nat
      = Some (<["Week of" := ObjCol out]> early_days_frame) ∧
    length out = 3%nat ∧
    ∀ i : nat,
      out !! i = Some None ↔
      [Some "03/12/2020"; Some "03/05/2020"; None] !! i = Some None ∨
      ∃ s, [Some "03/12/2020"; Some "03/05/2020"; None] !! i
             = Some (Some s) ∧ (s = "" ∨ s ∈ nat_strings).
Proof.
  apply (convert_date_format_missing_dates in_ns_bounds
    {[ 0%nat := early_days_frame ]}
           (convert_date_format in_ns_bounds 0%nat "Week of"
              {[ 0%nat := early_days_frame ]}).1
           0%nat 1%nat early_days_frame "Week of"
           [Some "03/12/2020"; Some "03/05/2020"; None]);
    reflexivity.
Defined.
